(** * torch-classification: the CIFAR100 dataset loader of [src/data/dataset.py]

    A shallow embedding of the archive reader ([CIFAR100]), of the two
    dataset constructors ([get_cifar100_dataset], [get_imagefolder_dataset])
    and of the loader builder ([get_cifar100_loaders]), with the properties
    of the split, of the decoded pixel layout and of the error paths.

    Conventions of the embedding:
    - Python [int] is [Z]; [len] results are [nat] injected into [Z] where
      the source computes with them;
    - a Python [float] argument ([val_size]) is its exact rational value in
      [Q], and [len(train_dataset) * val_size] is the exact product: the
      binary64 rounding of that one product is not modelled;
    - exceptions are the constructors of [exn], carried by [result];
    - the files that are opened and the state of torch's default random
      generator are threaded through the monad [M]. *)

From Stdlib Require Import ZArith QArith Qround String.
From Stdlib.Strings Require Import Byte.
From stdpp Require Import base option list gmap strings.

Local Open Scope string_scope.
Local Open Scope list_scope.
Local Open Scope Z_scope.

(** ** Exceptions and results *)

Inductive exn : Type :=
  | ValueError
  | TypeError
  | IndexError
  | KeyError
  | ZeroDivisionError
  | FileNotFoundError
  | UnpicklingError.

Inductive result (A : Type) : Type :=
  | Ok (a : A)
  | Raise (e : exn).
Arguments Ok {A} a.
Arguments Raise {A} e.

#[global] Instance result_ret : MRet result := fun A a => Ok a.
#[global] Instance result_bind : MBind result := fun A B f r =>
  match r with
  | Ok a => f a
  | Raise e => Raise e
  end.

Definition is_ok {A} (r : result A) : bool :=
  match r with Ok _ => true | Raise _ => false end.

(** ** Python sequences *)

(** [l[i]] for a Python list or the first axis of an ndarray: a negative
    index counts from the end, anything out of range raises IndexError. *)
Definition py_getitem {A} (l : list A) (i : Z) : result A :=
  let n := Z.of_nat (length l) in
  let j := if i <? 0 then n + i else i in
  if (0 <=? j) && (j <? n)
  then match l !! Z.to_nat j with
       | Some x => Ok x
       | None => Raise IndexError
       end
  else Raise IndexError.

(** A slice bound, as Python clamps it. *)
Definition py_bound (n i : Z) : nat :=
  Z.to_nat (if i <? 0 then Z.max 0 (n + i) else Z.min i n).

(** [l[a:b]] *)
Definition py_slice {A} (l : list A) (a b : Z) : list A :=
  let n := Z.of_nat (length l) in
  let lo := py_bound n a in
  let hi := py_bound n b in
  take (hi - lo)%nat (drop lo l).

(** [int(x)] for a float: truncation towards zero. *)
Definition py_int (x : Q) : Z := Z.quot (Qnum x) (Zpos (Qden x)).

(** [a // b] on ints: floor division. *)
Definition py_floordiv (a b : Z) : result Z :=
  if b =? 0 then Raise ZeroDivisionError else Ok (a / b).

(** [os.path.join(a, b)] for a relative [b]. *)
Definition ends_with_sep (a : string) : bool :=
  match String.length a with
  | O => false
  | S n => String.eqb (String.substring n 1 a) "/"
  end.

Definition path_join (a b : string) : string :=
  if String.eqb a "" then b
  else if ends_with_sep a then a +:+ b
  else a +:+ "/" +:+ b.

(** ** numpy arrays, as nested lists in row-major order *)

Abbreviation array1 := (list byte).
Abbreviation array2 := (list (list byte)).
Abbreviation array3 := (list (list (list byte))).
Abbreviation array4 := (list (list (list (list byte)))).

(** The first [n] consecutive blocks of [k] elements. *)
Fixpoint chunks {A} (n k : nat) (l : list A) : list (list A) :=
  match n with
  | O => []
  | S n' => take k l :: chunks n' k (drop k l)
  end.

(** [np.vstack(rows)] for a sequence of 1-d rows: the rows must exist and
    agree in length; the result is held by its row-major buffer. *)
Definition same_length {A} (rows : list (list A)) : bool :=
  match rows with
  | [] => true
  | r :: rs => forallb (fun r' => Nat.eqb (length r') (length r)) rs
  end.

Definition vstack (rows : array2) : result array1 :=
  match rows with
  | [] => Raise ValueError
  | _ :: _ => if same_length rows then Ok (concat rows) else Raise ValueError
  end.

Definition CHANNELS : nat := 3.
Definition HEIGHT : nat := 32.
Definition WIDTH : nat := 32.
Definition IMAGE_BYTES : nat := CHANNELS * (HEIGHT * WIDTH).

(** [buf.reshape(-1, 3, 32, 32)] *)
Definition reshape_images (buf : array1) : result array4 :=
  if Nat.eqb (length buf mod IMAGE_BYTES) 0
  then Ok ((fun img => (fun ch => chunks HEIGHT WIDTH ch)
                         <$> chunks CHANNELS (HEIGHT * WIDTH) img)
             <$> chunks (length buf / IMAGE_BYTES) IMAGE_BYTES buf)
  else Raise ValueError.

(** Matrix transposition of a list of rows of [ncols] entries. *)
Fixpoint zip_cons {A} (r : list A) (m : list (list A)) : list (list A) :=
  match r, m with
  | x :: r', c :: m' => (x :: c) :: zip_cons r' m'
  | _, _ => []
  end.

Fixpoint mtranspose {A} (ncols : nat) (m : list (list A)) : list (list A) :=
  match m with
  | [] => replicate ncols []
  | r :: rs => zip_cons r (mtranspose ncols rs)
  end.

(** One image from (channel, row, column) to (row, column, channel). *)
Definition chw_to_hwc (img : array3) : array3 :=
  mtranspose WIDTH <$> mtranspose HEIGHT img.

(** [arr.transpose((0, 2, 3, 1))] *)
Definition transpose_0231 (arr : array4) : array4 := chw_to_hwc <$> arr.

(** Indexing one axis further, when the entry exists. *)
Definition at_ {A} (o : option (list A)) (i : nat) : option A :=
  match o with
  | Some l => l !! i
  | None => None
  end.

(** The entry [img[a][b][c]] and the entry [arr[n][a][b][c]]. *)
Definition pixel3 (img : array3) (a b c : nat) : option byte :=
  at_ (at_ (img !! a) b) c.

Definition pixel (arr : array4) (n a b c : nat) : option byte :=
  at_ (at_ (at_ (arr !! n) a) b) c.

(** A PIL image: [Image.fromarray] keeps the (row, column, channel) array. *)
Inductive Image : Type := fromarray (a : array3).

(** ** The disk *)

(** A pickled dict, restricted to the keys the loader reads. *)
Record entry : Type := {
  e_data : option array2;
  e_fine_labels : option (list Z);
  e_fine_label_names : option (list string)
}.

Inductive file : Type :=
  | NotAPickle
  | Pickle (e : entry).

(** [files]: what [open] finds at a path; [folders]: what torchvision's
    ImageFolder finds when it scans a directory, the samples in its order. *)
Record disk : Type := {
  files : gmap string file;
  folders : gmap string (list (Image * Z))
}.

(** ** What the loader takes from its environment *)

(** [Tensor]: what a transform returns; [Generator]: the state of torch's
    default random generator; [randperm g n]: [torch.randperm(n)] drawn at
    state [g], with the state it leaves; [expanduser]: [os.path.expanduser]. *)
Class Ambient : Type := {
  Tensor : Type;
  Generator : Type;
  randperm : Generator -> nat -> list nat * Generator;
  expanduser : string -> string
}.

(** [torch.randperm(n)] is a permutation of [0 .. n-1]. *)
Definition permutes (E : Ambient) : Prop :=
  forall (g : Generator) (n : nat), (randperm g n).1 ≡ₚ seq 0 n.

Section Loader.
Context {E : Ambient}.

(** ** The state threaded through the loader *)

(** [opened]: the paths handed to [open] or scanned, latest first;
    [rng]: the state of the default generator. *)
Record world : Type := {
  opened : list string;
  rng : Generator
}.

Definition M (A : Type) : Type := world -> result A * world.

Definition ret {A} (a : A) : M A := fun w => (Ok a, w).

Definition raise {A} (e : exn) : M A := fun w => (Raise e, w).

Definition bind {A B} (m : M A) (k : A -> M B) : M B := fun w =>
  match m w with
  | (Ok a, w') => k a w'
  | (Raise e, w') => (Raise e, w')
  end.

Definition lift {A} (r : result A) : M A := fun w => (r, w).

Notation "'let*' x ':=' m 'in' k" := (bind m (fun x => k))
  (at level 10, x pattern, m at level 100, k at level 200).

(** [open(path, "rb")] followed by [pickle.load(f, encoding="latin1")] *)
Definition open_pickle (fs : disk) (path : string) : M entry := fun w =>
  let w' := {| opened := path :: opened w; rng := rng w |} in
  match files fs !! path with
  | None => (Raise FileNotFoundError, w')
  | Some NotAPickle => (Raise UnpicklingError, w')
  | Some (Pickle e) => (Ok e, w')
  end.

(** [entry[key]] *)
Definition key {A} (field : option A) : M A :=
  match field with
  | Some v => ret v
  | None => raise KeyError
  end.

(** One draw of [torch.randperm(n)] from the default generator. *)
Definition draw_randperm (n : nat) : M (list nat) := fun w =>
  let '(p, g) := randperm (rng w) n in
  (Ok p, {| opened := opened w; rng := g |}).

(** What item access returns for the image: the PIL image itself, or
    what the transform made of it. *)
Inductive picture : Type :=
  | Plain (img : Image)
  | Transformed (t : Tensor).

Definition apply_transform (transform : option (Image -> Tensor))
    (img : Image) : picture :=
  match transform with
  | Some f => Transformed (f img)
  | None => Plain img
  end.

(** ** class CIFAR100 *)

(** [c_data] and [c_labels] are [train_data], [train_labels] when [train]
    is set and [test_data], [test_labels] otherwise: [__init__] writes one
    pair, and every method reads the pair that [__init__] wrote. *)
Record CIFAR100 : Type := {
  root : string;
  train : bool;
  transform : option (Image -> Tensor);
  c_data : array4;
  c_labels : list Z;
  classes : list string
}.

Definition _load_data (fs : disk) (root : string) (name : string)
    : M (array4 * list Z) :=
  let path := path_join (path_join root "cifar-100-python") name in
  let* e := open_pickle fs path in
  let* data := key (e_data e) in
  let* labels := key (e_fine_labels e) in
  let* data := lift (vstack data ≫= reshape_images) in
  let data := transpose_0231 data in
  ret (data, labels).

Definition _load_meta (fs : disk) (root : string) : M entry :=
  let path := path_join (path_join root "cifar-100-python") "meta" in
  open_pickle fs path.

Definition __init__ (fs : disk) (root : string) (train : bool)
    (transform : option (Image -> Tensor)) : M CIFAR100 :=
  let root := expanduser root in
  let* dl := (if train then _load_data fs root "train"
              else _load_data fs root "test") in
  let* meta := _load_meta fs root in
  let* names := key (e_fine_label_names meta) in
  ret {| root := root; train := train; transform := transform;
         c_data := dl.1; c_labels := dl.2; classes := names |}.

Definition __getitem__ (self : CIFAR100) (index : Z) : result (picture * Z) :=
  img ← py_getitem (c_data self) index;
  target ← py_getitem (c_labels self) index;
  let img := fromarray img in
  let img := apply_transform (transform self) img in
  Ok (img, target).

Definition __len__ (self : CIFAR100) : nat := length (c_data self).

(** ** torchvision's ImageFolder, torch's Subset and random_split *)

(** Modelled from torchvision: [ImageFolder(path, transform=...)] scans
    [path]; a missing directory or one without samples raises
    FileNotFoundError; item access decodes the sample's file and applies
    the transform to the image. *)
Record ImageFolder : Type := {
  samples : list (Image * Z);
  if_transform : option (Image -> Tensor)
}.

Definition ImageFolder_init (fs : disk) (path : string)
    (transform : option (Image -> Tensor)) : M ImageFolder := fun w =>
  let w' := {| opened := path :: opened w; rng := rng w |} in
  match folders fs !! path with
  | None | Some [] => (Raise FileNotFoundError, w')
  | Some l => (Ok {| samples := l; if_transform := transform |}, w')
  end.

Definition ImageFolder_getitem (self : ImageFolder) (index : Z)
    : result (picture * Z) :=
  s ← py_getitem (samples self) index;
  Ok (apply_transform (if_transform self) s.1, s.2).

(** The two map-style datasets the constructors build. *)
Inductive Dataset : Type :=
  | OfCIFAR100 (c : CIFAR100)
  | OfImageFolder (f : ImageFolder).

Definition Dataset_len (d : Dataset) : nat :=
  match d with
  | OfCIFAR100 c => __len__ c
  | OfImageFolder f => length (samples f)
  end.

Definition Dataset_getitem (d : Dataset) (index : Z) : result (picture * Z) :=
  match d with
  | OfCIFAR100 c => __getitem__ c index
  | OfImageFolder f => ImageFolder_getitem f index
  end.

(** [torch.utils.data.Subset]: [self.dataset[self.indices[idx]]] *)
Record Subset : Type := {
  dataset : Dataset;
  indices : list nat
}.

Definition Subset_getitem (s : Subset) (idx : Z) : result (picture * Z) :=
  i ← py_getitem (indices s) idx;
  Dataset_getitem (dataset s) (Z.of_nat i).

(** What a name such as [train_dataset] is bound to: a dataset as built,
    or a subset of one after the split. *)
Inductive Data : Type :=
  | Whole (d : Dataset)
  | Part (s : Subset).

Definition len (d : Data) : nat :=
  match d with
  | Whole d => Dataset_len d
  | Part s => length (indices s)
  end.

Definition getitem (d : Data) (index : Z) : result (picture * Z) :=
  match d with
  | Whole d => Dataset_getitem d index
  | Part s => Subset_getitem s index
  end.

(** [itertools.accumulate(lengths)], from the running total [acc]. *)
Fixpoint accumulate (acc : Z) (lengths : list Z) : list Z :=
  match lengths with
  | [] => []
  | x :: xs => (acc + x) :: accumulate (acc + x) xs
  end.

Definition sum (lengths : list Z) : Z := foldr Z.add 0 lengths.

(** Modelled from torch: [random_split(dataset, lengths)] with integer
    lengths and the default generator. The lengths must add up to the
    dataset's length; one permutation is drawn and cut at the running
    totals: [indices[offset - length : offset]]. (Recent versions read
    lengths that add up to 1 as fractions; on lengths between 0 and the
    dataset's length that path yields the same lengths.) *)
Definition random_split (d : Dataset) (lengths : list Z) : M (list Subset) :=
  if negb (sum lengths =? Z.of_nat (Dataset_len d)) then raise ValueError
  else
    let* perm := draw_randperm (Z.to_nat (sum lengths)) in
    ret ((fun '(offset, length) =>
            {| dataset := d;
               indices := py_slice perm (offset - length) offset |})
           <$> zip (accumulate 0 lengths) lengths).

(** [a, b = xs] *)
Definition unpack2 {A} (xs : list A) : M (A * A) :=
  match xs with
  | [a; b] => ret (a, b)
  | _ => raise ValueError
  end.

(** ** The dataset constructors *)

Definition get_imagefolder_dataset (fs : disk) (root : string)
    (train_transform test_transform : option (Image -> Tensor))
    (val_size : Q) : M (Data * option Data * Data) :=
  let* train_dataset :=
    ImageFolder_init fs (path_join root "train") train_transform in
  let* test_dataset :=
    ImageFolder_init fs (path_join root "test") test_transform in
  let train_dataset := OfImageFolder train_dataset in
  let test_dataset := OfImageFolder test_dataset in
  if Qlt_le_dec 0 val_size then
    let val_size :=
      py_int (inject_Z (Z.of_nat (Dataset_len train_dataset)) * val_size)%Q in
    let train_size := Z.of_nat (Dataset_len train_dataset) - val_size in
    let* parts := random_split train_dataset [train_size; val_size] in
    let* tv := unpack2 parts in
    ret (Part tv.1, Some (Part tv.2), Whole test_dataset)
  else
    ret (Whole train_dataset, None, Whole test_dataset).

Definition get_cifar100_dataset (fs : disk) (root : string)
    (train_transform test_transform : option (Image -> Tensor))
    (val_size : Q) : M (Data * option Data * Data) :=
  let* train_dataset := __init__ fs root true train_transform in
  let* test_dataset := __init__ fs root false test_transform in
  let train_dataset := OfCIFAR100 train_dataset in
  let test_dataset := OfCIFAR100 test_dataset in
  if Qlt_le_dec 0 val_size then
    let val_size :=
      py_int (inject_Z (Z.of_nat (Dataset_len train_dataset)) * val_size)%Q in
    let train_size := Z.of_nat (Dataset_len train_dataset) - val_size in
    let* parts := random_split train_dataset [train_size; val_size] in
    let* tv := unpack2 parts in
    ret (Part tv.1, Some (Part tv.2), Whole test_dataset)
  else
    ret (Whole train_dataset, None, Whole test_dataset).

(** ** torch's DataLoader *)

Record DataLoader : Type := {
  dl_dataset : option Data;
  batch_size : Z;
  shuffle : bool;
  num_workers : Z;
  pin_memory : bool
}.

(** Modelled from torch: [DataLoader(dataset, batch_size=..., shuffle=...,
    num_workers=..., pin_memory=...)]. A negative worker count raises
    ValueError; with [shuffle] a RandomSampler is built, which takes
    [len(dataset)] (TypeError on None) and refuses an empty dataset; the
    BatchSampler refuses a batch size that is not positive. Without
    [shuffle] the dataset is stored as it is, None included. *)
Definition DataLoader_init (dataset : option Data) (batch_size : Z)
    (shuffle : bool) (num_workers : Z) (pin_memory : bool)
    : result DataLoader :=
  if num_workers <? 0 then Raise ValueError
  else
    _ ← (if shuffle then
           match dataset with
           | None => Raise TypeError
           | Some d => if Nat.eqb (len d) 0 then Raise ValueError else Ok tt
           end
         else Ok tt);
    if batch_size <=? 0 then Raise ValueError
    else Ok {| dl_dataset := dataset; batch_size := batch_size;
               shuffle := shuffle; num_workers := num_workers;
               pin_memory := pin_memory |}.

(** The order in which one pass visits the dataset: a fresh permutation
    with [shuffle], [0 .. len-1] without. *)
Definition sampler_order (dl : DataLoader) : M (list nat) :=
  match dl_dataset dl with
  | None => raise TypeError
  | Some d =>
      if shuffle dl then draw_randperm (len d) else ret (seq 0 (len d))
  end.

(** Consecutive batches of [k] indices, the last one possibly shorter. *)
Fixpoint batched {A} (fuel k : nat) (l : list A) : list (list A) :=
  match fuel, l with
  | S fuel', _ :: _ => take k l :: batched fuel' k (drop k l)
  | _, _ => []
  end.

Fixpoint traverse {A B} (f : A -> result B) (l : list A) : result (list B) :=
  match l with
  | [] => Ok []
  | x :: xs => y ← f x; ys ← traverse f xs; Ok (y :: ys)
  end.

(** One batch: the items at the batch's indices, images and labels
    collated side by side. *)
Definition fetch (d : Data) (batch : list nat)
    : result (list picture * list Z) :=
  match traverse (fun i => getitem d (Z.of_nat i)) batch with
  | Ok items => Ok (map fst items, map snd items)
  | Raise e => Raise e
  end.

(** One full pass over a loader. *)
Definition epoch (dl : DataLoader) : M (list (list picture * list Z)) :=
  let* order := sampler_order dl in
  match dl_dataset dl with
  | None => raise TypeError
  | Some d =>
      lift (traverse (fetch d)
              (batched (length order) (Z.to_nat (batch_size dl)) order))
  end.


(** ** The loader builder *)

(** The returned tuple; [steps_per_epoch] is its fourth component when
    [return_steps] is set. *)
Record loaders : Type := {
  train_loader : DataLoader;
  val_loader : DataLoader;
  test_loader : DataLoader;
  steps_per_epoch : option Z
}.

Definition get_cifar100_loaders (fs : disk) (root : string)
    (train_transform test_transform : option (Image -> Tensor))
    (batch_size num_workers : Z) (val_size : Q) (shuffle : bool)
    (dataset_type : string) (return_steps : bool) : M loaders :=
  let* ds :=
    (if String.eqb dataset_type "default" then
       get_cifar100_dataset fs root train_transform test_transform val_size
     else if String.eqb dataset_type "imagefolder" then
       get_imagefolder_dataset fs root train_transform test_transform val_size
     else raise ValueError) in
  let train_dataset := ds.1.1 in
  let val_dataset := ds.1.2 in
  let test_dataset := ds.2 in
  let* train_loader :=
    lift (DataLoader_init (Some train_dataset) batch_size shuffle
            num_workers true) in
  let* val_loader :=
    lift (DataLoader_init val_dataset batch_size shuffle num_workers true) in
  let* test_loader :=
    lift (DataLoader_init (Some test_dataset) batch_size false
            num_workers true) in
  if return_steps then
    let* steps :=
      lift (py_floordiv (Z.of_nat (len train_dataset)) batch_size) in
    ret {| train_loader := train_loader; val_loader := val_loader;
           test_loader := test_loader; steps_per_epoch := Some steps |}
  else
    ret {| train_loader := train_loader; val_loader := val_loader;
           test_loader := test_loader; steps_per_epoch := None |}.

End Loader.

(** ** A small environment and small disks, to run the loader on *)

(** A generator whose state is a counter: the permutation drawn at state
    [g] is [0 .. n-1] rotated by [g]; transforms return images; no path
    starts with a tilde. *)
Definition rotation (g n : nat) : list nat :=
  drop g (seq 0 n) ++ take g (seq 0 n).

Definition counter_env : Ambient := {|
  Tensor := Image;
  Generator := nat;
  randperm := fun g n => (rotation g n, S g);
  expanduser := fun p => p
|}.

Definition byte_at (n : nat) : byte :=
  match Byte.of_nat (n mod 256) with
  | Some b => b
  | None => x00
  end.

(** An archive of [n] images: in row [i], the byte of channel [c], row [h]
    and column [x] is [17 i + 5 c + 3 h + x] modulo 256; the labels are
    given. *)
Definition archive_row (i : nat) : array1 :=
  flat_map (fun c =>
    flat_map (fun h =>
      map (fun x => byte_at (17 * i + 5 * c + 3 * h + x)) (seq 0 WIDTH))
      (seq 0 HEIGHT))
    (seq 0 CHANNELS).

Definition archive_rows (n : nat) : array2 := archive_row <$> seq 0 n.

Definition archive (n : nat) (labels : list Z) : file :=
  Pickle {| e_data := Some (archive_rows n);
            e_fine_labels := Some labels;
            e_fine_label_names := None |}.

Definition meta_file : file :=
  Pickle {| e_data := None; e_fine_labels := None;
            e_fine_label_names := Some ["apple"; "aquarium_fish"; "baby"] |}.

(** A one-pixel image per sample, labelled by its position modulo 3. *)
Definition folder_samples (n : nat) : list (Image * Z) :=
  (fun i => (fromarray [[[byte_at i]]], Z.of_nat (i mod 3))) <$> seq 0 n.

(** Five training images and two test images in the archive layout, a
    hundred training samples and three test samples in the folder layout. *)
Definition sample_disk : disk := {|
  files :=
    <["data/cifar-100-python/train" :=
        archive 5 [0; 1; 2; 0; 1]]>
    (<["data/cifar-100-python/test" := archive 2 [2; 1]]>
    (<["data/cifar-100-python/meta" := meta_file]> ∅));
  folders :=
    <["data/train" := folder_samples 100]>
    (<["data/test" := folder_samples 3]> ∅)
|}.

(** The same layout with an archive of one image and no label, and with an
    archive of no image at all. *)
Definition mismatched_disk : disk := {|
  files := <["data/cifar-100-python/train" := archive 1 []]> ∅;
  folders := ∅
|}.

Definition empty_archive_disk : disk := {|
  files := <["data/cifar-100-python/train" := archive 0 []]> ∅;
  folders := ∅
|}.

Definition start (g : nat) : @world counter_env :=
  @Build_world counter_env [] g.

(** The one image of [archive 1] stored as two rows of half an image, with
    another label. *)
Definition halved_disk : disk := {|
  files :=
    <["data/cifar-100-python/train" :=
        Pickle {| e_data := Some (chunks 2 (IMAGE_BYTES / 2) (archive_row 0));
                  e_fine_labels := Some [5];
                  e_fine_label_names := None |}]> ∅;
  folders := ∅
|}.

(** A transform that blanks the image, and one that keeps its first row. *)
Definition blank : Image -> @Tensor counter_env := fun _ => fromarray [].

Definition first_row : Image -> @Tensor counter_env :=
  fun img => match img with fromarray a => fromarray (take 1 a) end.

(** Two one-pixel images with the labels 7 and 9, and a transform that
    blanks the image. *)
Definition tiny_dataset : @CIFAR100 counter_env :=
  @Build_CIFAR100 counter_env "data" false (Some (fun _ => fromarray []))
    [[[[x01]]]; [[[x02]]]] [7; 9] [].


(** ** What the properties are stated with *)

(** An array of shape [(a, b, c)]. *)
Definition has_shape (a b c : nat) (img : array3) : Prop :=
  length img = a
  /\ Forall (fun x => length x = b) img
  /\ Forall (Forall (fun y => length y = c)) img.

(** [floor(P * v)] *)
Definition val_count (P : nat) (v : Q) : nat :=
  Z.to_nat (Qfloor (inject_Z (Z.of_nat P) * v)).




(** The branch on [val_size] that both dataset constructors end with,
    for the train pool and the test set they have built. *)
Definition split_or_not {E : Ambient} (pool test : Dataset) (val_size : Q)
    : M (Data * option Data * Data) :=
  if Qlt_le_dec 0 val_size then
    let val_size :=
      py_int (inject_Z (Z.of_nat (Dataset_len pool)) * val_size)%Q in
    let train_size := Z.of_nat (Dataset_len pool) - val_size in
    bind (random_split pool [train_size; val_size]) (fun parts =>
    bind (unpack2 parts) (fun tv =>
    ret (Part tv.1, Some (Part tv.2), Whole test)))
  else
    ret (Whole pool, None, Whole test).

(** A computation that only reads the disk: its result does not depend on
    the state it starts from, it appends the same paths to [opened] and
    leaves the generator alone. *)
Definition reads {E : Ambient} {A} (m : M A) : Prop :=
  exists (r : result A) (log : list string),
    forall w, m w = (r, {| opened := log ++ opened w; rng := rng w |}).

(** The path of a file of the archive layout under [root]. *)
Definition archive_path (root name : string) : string :=
  path_join (path_join root "cifar-100-python") name.

(** The transform a dataset applies at item access. *)
Definition Dataset_transform {E : Ambient} (d : Dataset)
    : option (Image -> Tensor) :=
  match d with
  | OfCIFAR100 c => transform c
  | OfImageFolder f => if_transform f
  end.

(** The items of a dataset in index order, as item access returns them. *)
Definition items_in_order {E : Ambient} (d : Data)
    : result (list (picture * Z)) :=
  traverse (fun i => getitem d (Z.of_nat i)) (seq 0 (len d)).

(** The returned tuple without its fourth component. *)
Definition without_steps {E : Ambient} (r : loaders) : loaders :=
  {| train_loader := train_loader r; val_loader := val_loader r;
     test_loader := test_loader r; steps_per_epoch := None |}.

(** The dataset behind what a name is bound to. *)
Definition underlying {E : Ambient} (d : Data) : Dataset :=
  match d with
  | Whole d => d
  | Part s => dataset s
  end.


(** Either constructor, as a function of its arguments. *)
Definition is_constructor {E : Ambient}
    (build : disk -> string -> option (Image -> Tensor) ->
             option (Image -> Tensor) -> Q -> M (Data * option Data * Data))
    : Prop :=
  build = get_cifar100_dataset \/ build = get_imagefolder_dataset.

(** * Properties *)

(** ** Blocks and transposition *)

Section ArrayFacts.
Local Open Scope nat_scope.
Context {A : Type}.
Implicit Types (l r : list A) (m : list (list A)).

Lemma length_chunks n k l : length (chunks n k l) = n.
Proof. revert l. induction n as [|n IH]; intros l; simpl; auto. Qed.

Lemma chunks_lookup n k l i :
  i < n -> chunks n k l !! i = Some (take k (drop (i * k) l)).
Proof.
  revert l i. induction n as [|n IH]; intros l [|i] Hi; simpl; try lia.
  - reflexivity.
  - rewrite IH by lia. rewrite drop_drop. reflexivity.
Qed.

Lemma chunks_Forall_length n k l :
  n * k <= length l -> Forall (fun c => length c = k) (chunks n k l).
Proof.
  revert l. induction n as [|n IH]; intros l Hl; simpl; constructor.
  - rewrite length_take. lia.
  - apply IH. rewrite length_drop. lia.
Qed.

Lemma zip_cons_lookup r m j :
  zip_cons r m !! j =
  match r !! j, m !! j with
  | Some x, Some c => Some (x :: c)
  | _, _ => None
  end.
Proof.
  revert m j. induction r as [|x r IH]; intros [|c m] [|j]; simpl; auto.
  destruct (r !! j); reflexivity.
Qed.

Lemma mtranspose_lookup ncols m j :
  Forall (fun r => length r = ncols) m ->
  j < ncols ->
  exists col, mtranspose ncols m !! j = Some col
              /\ length col = length m
              /\ forall i, col !! i = at_ (m !! i) j.
Proof.
  intros Hm Hj. induction Hm as [|r m Hr Hm IH]; simpl.
  - exists []. rewrite lookup_replicate_2 by done.
    split; [done|]. split; [done|]. intros i. by destruct i.
  - destruct IH as (col & Hcol & Hlen & Hi).
    rewrite zip_cons_lookup, Hcol.
    destruct (lookup_lt_is_Some_2 r j) as [x Hx]; [lia|].
    rewrite Hx. exists (x :: col). split; [done|]. split; [simpl; lia|].
    intros [|i]; simpl; [done|apply Hi].
Qed.

Lemma length_zip_cons r m :
  length (zip_cons r m) = min (length r) (length m).
Proof.
  revert m. induction r as [|x r IH]; intros [|c m]; simpl; auto.
Qed.

Lemma length_mtranspose ncols m :
  Forall (fun r => length r = ncols) m -> length (mtranspose ncols m) = ncols.
Proof.
  induction 1 as [|r m Hr Hm IH]; simpl.
  - apply length_replicate.
  - rewrite length_zip_cons. lia.
Qed.

Lemma zip_cons_Forall (P P' : list A -> Prop) (Q : A -> Prop) r m :
  (forall x c, Q x -> P c -> P' (x :: c)) ->
  Forall Q r -> Forall P m -> Forall P' (zip_cons r m).
Proof.
  intros HPQ Hr. revert m.
  induction Hr as [|x r Hx Hr IH]; intros m Hm; simpl; [constructor|].
  destruct Hm as [|c m Hc Hm]; constructor; auto.
Qed.

Lemma mtranspose_Forall_length ncols m :
  Forall (fun col => length col = length m) (mtranspose ncols m).
Proof.
  induction m as [|r m IH]; simpl.
  - by apply Forall_replicate.
  - apply (zip_cons_Forall (fun col => length col = length m) _
             (fun _ => True)); [| by apply Forall_true | done].
    intros x c _ Hc. simpl. by rewrite Hc.
Qed.

Lemma mtranspose_Forall_Forall (Q : A -> Prop) ncols m :
  Forall (Forall Q) m -> Forall (Forall Q) (mtranspose ncols m).
Proof.
  induction 1 as [|r m Hr Hm IH]; simpl.
  - apply Forall_replicate. constructor.
  - apply (zip_cons_Forall (Forall Q) _ Q); auto.
Qed.

End ArrayFacts.

Section LayoutFacts.
Local Open Scope nat_scope.

Lemma chw_to_hwc_pixel img c h w :
  has_shape CHANNELS HEIGHT WIDTH img ->
  h < HEIGHT -> w < WIDTH ->
  pixel3 (chw_to_hwc img) h w c = pixel3 img c h w.
Proof.
  intros (Hc & Hh' & Hw') Hh Hw. unfold pixel3, chw_to_hwc.
  destruct (mtranspose_lookup HEIGHT img h Hh' Hh) as (col & Hcol & Hlen & Hi).
  rewrite list_lookup_fmap, Hcol. cbn [fmap option_fmap option_map at_].
  assert (Forall (fun r : list byte => length r = WIDTH) col) as Hrows.
  { pose proof (mtranspose_Forall_Forall _ HEIGHT img Hw') as HF.
    rewrite Forall_lookup in HF. eauto. }
  destruct (mtranspose_lookup WIDTH col w Hrows Hw) as (px & Hpx & _ & Hj).
  rewrite Hpx. cbn [at_]. rewrite Hj, Hi. reflexivity.
Qed.

Lemma chw_to_hwc_shape img :
  has_shape CHANNELS HEIGHT WIDTH img ->
  has_shape HEIGHT WIDTH CHANNELS (chw_to_hwc img).
Proof.
  intros (Hc & Hh & Hw). unfold chw_to_hwc.
  pose proof (mtranspose_Forall_Forall _ HEIGHT img Hw) as HF.
  pose proof (mtranspose_Forall_length HEIGHT img) as HL.
  rewrite Hc in HL.
  split; [|split].
  - rewrite length_fmap. by apply length_mtranspose.
  - apply Forall_fmap. eapply Forall_impl; [exact HF|].
    intros col Hcol. by apply length_mtranspose.
  - apply Forall_fmap.
    rewrite Forall_lookup in HL. apply Forall_lookup. intros i col Hi.
    cbn. pose proof (mtranspose_Forall_length WIDTH col) as HL'.
    rewrite (HL _ _ Hi) in HL'. exact HL'.
Qed.

Lemma image_bytes_pos : IMAGE_BYTES <> 0.
Proof. unfold IMAGE_BYTES, CHANNELS, HEIGHT, WIDTH. lia. Qed.

(** The blocks of one stored image have the (3, 32, 32) shape. *)
Lemma stored_image_shape (img : array1) :
  length img = IMAGE_BYTES ->
  has_shape CHANNELS HEIGHT WIDTH
    ((fun ch => chunks HEIGHT WIDTH ch) <$> chunks CHANNELS (HEIGHT * WIDTH) img).
Proof.
  intros Hlen.
  assert (Forall (fun ch : array1 => length ch = HEIGHT * WIDTH)
            (chunks CHANNELS (HEIGHT * WIDTH) img)) as Hch.
  { apply chunks_Forall_length. rewrite Hlen. unfold IMAGE_BYTES. lia. }
  split; [|split].
  - by rewrite length_fmap, length_chunks.
  - apply Forall_fmap, Forall_true. intros ch. apply length_chunks.
  - apply Forall_fmap. eapply Forall_impl; [exact Hch|].
    intros ch Hl. cbv beta in Hl.
    apply (chunks_Forall_length HEIGHT WIDTH ch). lia.
Qed.

Lemma reshape_images_ok (buf : array1) (N : nat) :
  length buf = N * IMAGE_BYTES ->
  exists arr,
    reshape_images buf = Ok arr
    /\ length arr = N
    /\ Forall (has_shape CHANNELS HEIGHT WIDTH) arr
    /\ forall i c h w,
         i < N -> c < CHANNELS -> h < HEIGHT -> w < WIDTH ->
         pixel arr i c h w
         = buf !! (i * IMAGE_BYTES + c * (HEIGHT * WIDTH) + h * WIDTH + w).
Proof.
  intros Hlen. unfold reshape_images.
  rewrite Hlen, Nat.Div0.mod_mul, Nat.eqb_refl.
  rewrite Nat.div_mul by apply image_bytes_pos.
  eexists. split; [reflexivity|].
  assert (Forall (fun img : array1 => length img = IMAGE_BYTES)
            (chunks N IMAGE_BYTES buf)) as Himgs.
  { apply chunks_Forall_length. lia. }
  split; [|split].
  - by rewrite length_fmap, length_chunks.
  - apply Forall_fmap. eapply Forall_impl; [exact Himgs|].
    intros img Hl. by apply stored_image_shape.
  - intros i c h w Hi Hc Hh Hw. unfold pixel.
    rewrite list_lookup_fmap, chunks_lookup by done.
    cbn [fmap option_fmap option_map at_].
    rewrite list_lookup_fmap, chunks_lookup by done.
    cbn [fmap option_fmap option_map at_].
    rewrite chunks_lookup by done. cbn [at_].
    assert (h * WIDTH + w < HEIGHT * WIDTH) as H1
      by (unfold HEIGHT, WIDTH in *; lia).
    assert (c * (HEIGHT * WIDTH) + h * WIDTH + w < IMAGE_BYTES) as H2
      by (unfold IMAGE_BYTES, CHANNELS, HEIGHT, WIDTH in *; lia).
    rewrite lookup_take_lt by done. rewrite lookup_drop.
    rewrite lookup_take_lt by done. rewrite lookup_drop.
    rewrite lookup_take_lt by lia. rewrite lookup_drop.
    f_equal. lia.
Qed.

(** Decoding a buffer of [N] stored images: [np.vstack], the reshape and
    the transposition together. *)
Lemma decode_ok (rows : array2) (N : nat) :
  rows <> [] ->
  same_length rows = true ->
  length (concat rows) = N * IMAGE_BYTES ->
  exists arr,
    vstack rows ≫= reshape_images = Ok arr
    /\ length (transpose_0231 arr) = N
    /\ Forall (has_shape HEIGHT WIDTH CHANNELS) (transpose_0231 arr)
    /\ forall i h w c,
         i < N -> h < HEIGHT -> w < WIDTH -> c < CHANNELS ->
         pixel (transpose_0231 arr) i h w c
         = concat rows
             !! (i * IMAGE_BYTES + c * (HEIGHT * WIDTH) + h * WIDTH + w).
Proof.
  intros Hne Hsame Hlen.
  destruct (reshape_images_ok (concat rows) N Hlen)
    as (arr & Harr & HN & Hshape & Hpix).
  exists arr. split.
  { unfold vstack. destruct rows as [|r rows]; [done|].
    rewrite Hsame. exact Harr. }
  unfold transpose_0231. split; [by rewrite length_fmap|]. split.
  { apply Forall_fmap. eapply Forall_impl; [exact Hshape|].
    intros img. apply chw_to_hwc_shape. }
  intros i h w c Hi Hh Hw Hc. rewrite <- Hpix by done.
  unfold pixel. rewrite list_lookup_fmap.
  destruct (arr !! i) as [img|] eqn:Himg.
  - cbn [fmap option_fmap option_map].
    rewrite Forall_lookup in Hshape.
    apply (chw_to_hwc_pixel img c h w); eauto.
  - apply lookup_ge_None_1 in Himg. lia.
Qed.

End LayoutFacts.

(** ** Arithmetic of the validation count *)

Section CountFacts.

Lemma py_int_floor (x : Q) : (0 <= x)%Q -> py_int x = Qfloor x.
Proof.
  destruct x as [n d]. unfold Qle, py_int, Qfloor. cbn. intros H.
  apply Z.quot_div_nonneg; lia.
Qed.

Lemma scaled_nonneg (P : Z) (v : Q) :
  0 <= P -> (0 < v)%Q -> (0 <= inject_Z P * v)%Q.
Proof.
  intros HP Hv. apply Qmult_le_0_compat.
  - unfold Qle. cbn. lia.
  - by apply Qlt_le_weak.
Qed.

Lemma floor_scaled_bounds (P : Z) (v : Q) :
  0 <= P -> (0 < v)%Q -> (v < 1)%Q ->
  0 <= Qfloor (inject_Z P * v) <= P.
Proof.
  intros HP H0 H1. destruct v as [n d]. unfold Qlt in *. cbn in *.
  split.
  - apply Z.div_pos; nia.
  - apply Z.div_le_upper_bound; nia.
Qed.

Lemma py_int_scaled (P : nat) (v : Q) :
  (0 < v)%Q -> (v < 1)%Q ->
  py_int (inject_Z (Z.of_nat P) * v) = Z.of_nat (val_count P v)
  /\ (val_count P v <= P)%nat.
Proof.
  intros H0 H1. unfold val_count.
  pose proof (floor_scaled_bounds (Z.of_nat P) v ltac:(lia) H0 H1) as [Hlo Hhi].
  rewrite py_int_floor by (apply scaled_nonneg; [lia|done]).
  split; lia.
Qed.

End CountFacts.

(** ** Slices, the monad and the split *)

Section LoaderFacts.
Context {E : Ambient}.

Lemma py_slice_prefix {A} (l : list A) (k : nat) :
  (k <= length l)%nat -> py_slice l (Z.of_nat k - Z.of_nat k) (Z.of_nat k) = take k l.
Proof.
  intros Hk. unfold py_slice, py_bound.
  rewrite Z.sub_diag. cbn [Z.ltb Z.compare].
  destruct (Z.ltb_spec (Z.of_nat k) 0) as [|_]; [lia|].
  rewrite Z.min_l by lia. rewrite Z.min_l by lia.
  rewrite Nat2Z.id. cbn [Z.to_nat drop]. f_equal. lia.
Qed.

Lemma py_slice_suffix {A} (l : list A) (k : nat) :
  (k <= length l)%nat ->
  py_slice l (Z.of_nat (length l) - Z.of_nat k) (Z.of_nat (length l))
  = drop (length l - k) l.
Proof.
  intros Hk. unfold py_slice, py_bound.
  destruct (Z.ltb_spec (Z.of_nat (length l) - Z.of_nat k) 0) as [|_]; [lia|].
  destruct (Z.ltb_spec (Z.of_nat (length l)) 0) as [|_]; [lia|].
  rewrite Z.min_l by lia. rewrite Z.min_l by lia.
  replace (Z.to_nat (Z.of_nat (length l) - Z.of_nat k))
    with (length l - k)%nat by lia.
  rewrite Nat2Z.id. apply take_ge. rewrite length_drop. lia.
Qed.

Lemma bind_ok {A B} (m : M A) (k : A -> M B) w a w1 :
  m w = (Ok a, w1) -> bind m k w = k a w1.
Proof. intros H. unfold bind. by rewrite H. Qed.

Lemma bind_inv {A B} (m : M A) (k : A -> M B) w b w' :
  bind m k w = (Ok b, w') ->
  exists a w1, m w = (Ok a, w1) /\ k a w1 = (Ok b, w').
Proof.
  unfold bind. destruct (m w) as [[a|e] w1]; [eauto|discriminate].
Qed.

Lemma randperm_length (HE : permutes E) (g : Generator) (n : nat) :
  length (randperm g n).1 = n.
Proof. rewrite (Permutation_length (HE g n)). apply length_seq. Qed.

(** The split proper: one permutation of the pool, cut after the first
    [P - k] entries. *)
Lemma random_split_two (HE : permutes E) (d : Dataset) (k : nat) w :
  (k <= Dataset_len d)%nat ->
  random_split d [Z.of_nat (Dataset_len d) - Z.of_nat k; Z.of_nat k] w
  = (Ok [ {| dataset := d;
             indices := take (Dataset_len d - k)
                          (randperm (rng w) (Dataset_len d)).1 |};
          {| dataset := d;
             indices := drop (Dataset_len d - k)
                          (randperm (rng w) (Dataset_len d)).1 |} ],
     {| opened := opened w; rng := (randperm (rng w) (Dataset_len d)).2 |}).
Proof.
  intros Hk. unfold random_split. cbn [sum foldr].
  replace (Z.of_nat (Dataset_len d) - Z.of_nat k + (Z.of_nat k + 0))
    with (Z.of_nat (Dataset_len d)) by lia.
  rewrite Z.eqb_refl. cbn [negb]. rewrite Nat2Z.id.
  unfold bind, draw_randperm, ret.
  pose proof (randperm_length HE (rng w) (Dataset_len d)) as Hlen.
  destruct (randperm (rng w) (Dataset_len d)) as [perm g]. cbn [fst snd] in *.
  cbn [accumulate zip zip_with fmap list_fmap].
  rewrite Z.add_0_l.
  replace (Z.of_nat (Dataset_len d) - Z.of_nat k + Z.of_nat k)
    with (Z.of_nat (length perm)) by lia.
  replace (Z.of_nat (Dataset_len d) - Z.of_nat k)
    with (Z.of_nat (Dataset_len d - k)) by lia.
  rewrite py_slice_prefix by lia.
  replace (Z.of_nat (length perm) - Z.of_nat k)
    with (Z.of_nat (length perm) - Z.of_nat k) by lia.
  rewrite py_slice_suffix by lia. rewrite Hlen. reflexivity.
Qed.

Lemma split_or_not_pos (HE : permutes E) (pool test : Dataset) (v : Q) w :
  (0 < v)%Q -> (v < 1)%Q ->
  let P := Dataset_len pool in
  let k := val_count P v in
  split_or_not pool test v w
  = (Ok (Part {| dataset := pool;
                 indices := take (P - k) (randperm (rng w) P).1 |},
         Some (Part {| dataset := pool;
                       indices := drop (P - k) (randperm (rng w) P).1 |}),
         Whole test),
     {| opened := opened w; rng := (randperm (rng w) P).2 |}).
Proof.
  intros H0 H1 P k. unfold split_or_not.
  destruct (Qlt_le_dec 0 v) as [_|Hle]; [|by apply Qle_not_lt in Hle].
  destruct (py_int_scaled P v H0 H1) as [Hint Hk]. fold P. rewrite Hint.
  fold k. erewrite bind_ok by (apply random_split_two; [done|exact Hk]).
  reflexivity.
Qed.

Lemma split_or_not_nonpos (pool test : Dataset) (v : Q) w :
  (v <= 0)%Q ->
  split_or_not pool test v w = (Ok (Whole pool, None, Whole test), w).
Proof.
  intros Hv. unfold split_or_not.
  destruct (Qlt_le_dec 0 v) as [Hlt|_]; [by apply Qle_not_lt in Hv|].
  reflexivity.
Qed.

Lemma get_cifar100_dataset_eq fs root tt te v :
  get_cifar100_dataset fs root tt te v
  = bind (__init__ fs root true tt) (fun ctr =>
    bind (__init__ fs root false te) (fun cte =>
    split_or_not (OfCIFAR100 ctr) (OfCIFAR100 cte) v)).
Proof. reflexivity. Qed.

Lemma get_imagefolder_dataset_eq fs root tt te v :
  get_imagefolder_dataset fs root tt te v
  = bind (ImageFolder_init fs (path_join root "train") tt) (fun ftr =>
    bind (ImageFolder_init fs (path_join root "test") te) (fun fte =>
    split_or_not (OfImageFolder ftr) (OfImageFolder fte) v)).
Proof. reflexivity. Qed.


(** *** Computations that only read the disk *)

Lemma reads_ret {A} (a : A) : reads (ret a).
Proof. exists (Ok a), []. by intros []. Qed.

Lemma reads_raise {A} (e : exn) : reads (@raise E A e).
Proof. exists (Raise e), []. by intros []. Qed.

Lemma reads_lift {A} (r : result A) : reads (lift r).
Proof. exists r, []. by intros []. Qed.

Lemma reads_key {A} (field : option A) : reads (key field).
Proof. destruct field; [apply reads_ret|apply reads_raise]. Qed.

Lemma reads_open_pickle fs path : reads (open_pickle fs path).
Proof.
  unfold reads, open_pickle.
  destruct (files fs !! path) as [[|e]|]; eexists _, [path]; intros w;
    reflexivity.
Qed.

Lemma reads_ImageFolder_init fs path tf : reads (ImageFolder_init fs path tf).
Proof.
  unfold reads, ImageFolder_init.
  destruct (folders fs !! path) as [[|x l]|]; eexists _, [path]; intros w;
    reflexivity.
Qed.

Lemma reads_bind {A B} (m : M A) (k : A -> M B) :
  reads m -> (forall a, reads (k a)) -> reads (bind m k).
Proof.
  intros (r & log & Hm) Hk. destruct r as [a|e].
  - destruct (Hk a) as (r' & log' & Hka). exists r', (log' ++ log)%list.
    intros w. unfold bind. rewrite Hm, Hka. cbn [opened rng].
    by rewrite <- app_assoc.
  - exists (Raise e), log. intros w. unfold bind. by rewrite Hm.
Qed.

Lemma reads__load_data fs root name : reads (_load_data fs root name).
Proof.
  unfold _load_data.
  repeat (apply reads_bind; [|intros ?]);
    auto using reads_open_pickle, reads_key, reads_lift, reads_ret.
Qed.

Lemma reads___init__ fs root tr tf : reads (__init__ fs root tr tf).
Proof.
  unfold __init__, _load_meta.
  repeat (apply reads_bind; [|intros ?]);
    auto using reads_open_pickle, reads_key, reads_ret.
  destruct tr; apply reads__load_data.
Qed.

Lemma reads_rng {A} (m : M A) w r w1 :
  reads m -> m w = (r, w1) -> rng w1 = rng w.
Proof. intros (r' & log & Hm) H. rewrite Hm in H. by injection H as _ <-. Qed.


(** A constructor that returned has built its two datasets and then taken
    the branch on [val_size]. *)
Lemma built_then_split_inv {A} (build : bool -> M A) (wrap : A -> Dataset)
    (v : Q) w res w' :
  bind (build true) (fun x => bind (build false) (fun y =>
    split_or_not (wrap x) (wrap y) v)) w = (Ok res, w') ->
  exists a_tr a_te w1 w2,
    build true w = (Ok a_tr, w1) /\ build false w1 = (Ok a_te, w2)
    /\ split_or_not (wrap a_tr) (wrap a_te) v w2 = (Ok res, w').
Proof.
  intros H. apply bind_inv in H as (a_tr & w1 & H1 & H).
  apply bind_inv in H as (a_te & w2 & H2 & H). eauto 8.
Qed.


(** *** Loaders *)

Lemma DataLoader_init_inv ds bs sh nw pm dl :
  DataLoader_init ds bs sh nw pm = Ok dl ->
  dl = {| dl_dataset := ds; batch_size := bs; shuffle := sh;
          num_workers := nw; pin_memory := pm |}
  /\ 0 < bs
  /\ (sh = true -> exists d, ds = Some d).
Proof.
  unfold DataLoader_init. destruct (nw <? 0); [discriminate|].
  destruct sh.
  - destruct ds as [d|]; [|discriminate].
    destruct (Nat.eqb (len d) 0); [discriminate|]. cbn.
    destruct (Z.leb_spec bs 0); [discriminate|].
    intros [= <-]. eauto.
  - cbn. destruct (Z.leb_spec bs 0); [discriminate|].
    intros [= <-]. split; [done|]. split; [done|discriminate].
Qed.

Lemma lift_bind_inv {A B} (r : result A) (k : A -> M B) w b w' :
  bind (lift r) k w = (Ok b, w') -> exists a, r = Ok a /\ k a w = (Ok b, w').
Proof.
  intros H. apply bind_inv in H as (a & w1 & Hr & H).
  unfold lift in Hr. injection Hr as -> <-. eauto.
Qed.


(** *** One pass over an unshuffled loader *)


Lemma traverse_app {A B} (f : A -> result B) (l1 l2 : list A) :
  traverse f (l1 ++ l2)
  = match traverse f l1 with
    | Ok ys1 =>
        match traverse f l2 with
        | Ok ys2 => Ok (ys1 ++ ys2)
        | Raise e => Raise e
        end
    | Raise e => Raise e
    end.
Proof.
  induction l1 as [|x l1 IH]; cbn.
  - by destruct (traverse f l2).
  - destruct (f x) as [y|e]; cbn; [|done]. rewrite IH.
    destruct (traverse f l1) as [ys1|e]; cbn; [|done].
    by destruct (traverse f l2).
Qed.





End LoaderFacts.

(** ** The archive reader *)

Section ArchiveReader.
Context {E : Ambient}.

Lemma py_getitem_valid {A} (l : list A) (i : Z) :
  - Z.of_nat (length l) <= i < Z.of_nat (length l) ->
  exists x, l !! Z.to_nat (i mod Z.of_nat (length l)) = Some x
            /\ py_getitem l i = Ok x.
Proof.
  intros Hi. unfold py_getitem.
  set (n := Z.of_nat (length l)) in *.
  assert ((if i <? 0 then n + i else i) = i mod n) as ->.
  { destruct (Z.ltb_spec i 0).
    - apply (Z.mod_unique i n (-1) (n + i)); lia.
    - symmetry. apply Z.mod_small. lia. }
  assert (0 <= i mod n < n) as Hm by (apply Z.mod_pos_bound; lia).
  destruct (Z.leb_spec 0 (i mod n)); [|lia].
  destruct (Z.ltb_spec (i mod n) n); [|lia]. cbn [andb].
  destruct (lookup_lt_is_Some_2 l (Z.to_nat (i mod n))) as [x Hx]; [lia|].
  rewrite Hx. eauto.
Qed.

Lemma py_getitem_nat {A} (l : list A) (i : nat) :
  py_getitem l (Z.of_nat i)
  = match l !! i with Some x => Ok x | None => Raise IndexError end.
Proof.
  unfold py_getitem. destruct (Z.ltb_spec (Z.of_nat i) 0); [lia|].
  destruct (Z.leb_spec 0 (Z.of_nat i)); [|lia]. cbn [andb].
  rewrite Nat2Z.id.
  destruct (Z.ltb_spec (Z.of_nat i) (Z.of_nat (length l))).
  - reflexivity.
  - rewrite lookup_ge_None_2 by lia. reflexivity.
Qed.

Lemma _load_data_run fs root name e rows labels w :
  files fs !! path_join (path_join root "cifar-100-python") name
    = Some (Pickle e) ->
  e_data e = Some rows -> e_fine_labels e = Some labels ->
  _load_data fs root name w
  = (match vstack rows ≫= reshape_images with
     | Ok arr => Ok (transpose_0231 arr, labels)
     | Raise err => Raise err
     end,
     {| opened := path_join (path_join root "cifar-100-python") name
                    :: opened w;
        rng := rng w |}).
Proof.
  intros Hf Hd Hl. unfold _load_data, bind, open_pickle.
  rewrite Hf, Hd, Hl. cbn [key ret lift].
  by destruct (vstack rows ≫= reshape_images).
Qed.


(** C7, as amended. The reader never compares the number of images with the
    number of labels: whenever the buffer decodes (rows present, of one
    length, a multiple of 3072 bytes in all) [_load_data] succeeds and
    returns the label sequence as stored, whatever its length; an index
    that has an image but no label fails at item access, with IndexError. *)
Theorem load_data_ignores_label_count fs root name e rows labels (N : nat) w :
  files fs !! path_join (path_join root "cifar-100-python") name
    = Some (Pickle e) ->
  e_data e = Some rows -> e_fine_labels e = Some labels ->
  rows <> [] -> same_length rows = true ->
  length (concat rows) = (N * IMAGE_BYTES)%nat ->
  exists data w',
    _load_data fs root name w = (Ok (data, labels), w')
    /\ length data = N
    /\ forall (self : CIFAR100) (i : nat),
         c_data self = data -> c_labels self = labels ->
         (length labels <= i < N)%nat ->
         __getitem__ self (Z.of_nat i) = Raise IndexError.
Proof.
  intros Hf Hd Hl Hne Hsame Hlen.
  destruct (decode_ok rows N Hne Hsame Hlen) as (arr & Harr & HN & _).
  rewrite (_load_data_run _ _ _ _ _ _ _ Hf Hd Hl), Harr.
  eexists _, _. split; [reflexivity|]. split; [exact HN|].
  intros self i Hdata Hlabels [Hlo Hhi].
  destruct (lookup_lt_is_Some_2 (transpose_0231 arr) i) as [img Himg]; [lia|].
  unfold __getitem__. rewrite !py_getitem_nat, Hdata, Himg, Hlabels.
  rewrite lookup_ge_None_2 by done. reflexivity.
Qed.


End ArchiveReader.

(** ** The split and the loader builder *)

Section Builder.
Context {E : Ambient}.



(** C9, as amended. [val_size] is not checked against [0, 1]: for a
    negative [val_size], once the train pool and the test set are built,
    either constructor succeeds and returns the whole train pool, no
    validation subset and the test set, as it does for [val_size == 0]. *)
Theorem negative_val_size_accepted fs root tt te (v : Q) w :
  (v < 0)%Q ->
  (forall ctr cte w1 w2,
      __init__ fs root true tt w = (Ok ctr, w1) ->
      __init__ fs root false te w1 = (Ok cte, w2) ->
      get_cifar100_dataset fs root tt te v w
        = (Ok (Whole (OfCIFAR100 ctr), None, Whole (OfCIFAR100 cte)), w2)
      /\ get_cifar100_dataset fs root tt te v w
         = get_cifar100_dataset fs root tt te 0 w)
  /\ (forall ftr fte w1 w2,
         ImageFolder_init fs (path_join root "train") tt w = (Ok ftr, w1) ->
         ImageFolder_init fs (path_join root "test") te w1 = (Ok fte, w2) ->
         get_imagefolder_dataset fs root tt te v w
           = (Ok (Whole (OfImageFolder ftr), None, Whole (OfImageFolder fte)),
              w2)
         /\ get_imagefolder_dataset fs root tt te v w
            = get_imagefolder_dataset fs root tt te 0 w).
Proof.
  intros Hv. apply Qlt_le_weak in Hv.
  split.
  - intros ctr cte w1 w2 Htr Hte. rewrite !get_cifar100_dataset_eq.
    erewrite !bind_ok by eassumption.
    rewrite !split_or_not_nonpos; [done|apply Qle_refl|done].
  - intros ftr fte w1 w2 Htr Hte. rewrite !get_imagefolder_dataset_eq.
    erewrite !bind_ok by eassumption.
    rewrite !split_or_not_nonpos; [done|apply Qle_refl|done].
Qed.

(** C4. A backend selector other than "default" and "imagefolder" makes
    the builder raise ValueError (the InvalidArgument of the taxonomy) in
    the state it was called in: no path has been opened or scanned and the
    generator has not been touched, so no dataset was constructed. *)
Theorem unknown_backend_rejected fs root tt te bs nw (v : Q) sh dt rs w :
  dt <> "default" -> dt <> "imagefolder" ->
  get_cifar100_loaders fs root tt te bs nw v sh dt rs w = (Raise ValueError, w).
Proof.
  intros H1 H2. unfold get_cifar100_loaders.
  apply String.eqb_neq in H1, H2. rewrite H1, H2. reflexivity.
Qed.



End Builder.

(** ** The loader at work on the small disks *)

Lemma archive_rows_nonempty (n : nat) : archive_rows (S n) <> [].
Proof. discriminate. Qed.

Lemma counter_env_permutes : permutes counter_env.
Proof.
  intros g n. cbn. unfold rotation.
  rewrite Permutation_app_comm. by rewrite take_drop.
Qed.


(** Running a computation to its value: [H : m = (Ok r, w')] for the
    [r] and [w'] the evaluation finds, handed to [k]. *)
Ltac run_ok m k :=
  let res := eval vm_compute in m in
  match res with
  | (Ok ?r, ?w') =>
      let H := fresh "Hrun" in
      assert (H : m = (Ok r, w')) by (vm_compute; reflexivity);
      k r w' H
  end.

(** C2. With [val_size = 0] the dataset constructor returns None for the
    validation set, but the builder hands that None to a DataLoader all the
    same: with [shuffle] (the default) the call raises TypeError, and
    without it the builder returns three loaders, the validation one built
    over None. *)
Theorem val_size_zero_still_builds_val_loader :
  (exists tr te',
      (get_cifar100_dataset (E:=counter_env) sample_disk "data" None None 0
         (start 0)).1 = Ok (tr, None, te'))
  /\ (get_cifar100_loaders (E:=counter_env) sample_disk "data" None None
        4 4 0 true "default" false (start 0)).1 = Raise TypeError
  /\ exists r,
       (get_cifar100_loaders (E:=counter_env) sample_disk "data" None None
          4 4 0 false "default" false (start 0)).1 = Ok r
       /\ val_loader r
          = {| dl_dataset := None; batch_size := 4; shuffle := false;
               num_workers := 4; pin_memory := true |}.
Proof.
  split; [|split].
  - eexists _, _. vm_compute. reflexivity.
  - vm_compute. reflexivity.
  - eexists. split; vm_compute; reflexivity.
Qed.



Lemma unknown_backend_rejected_witness :
  "bogus" <> "default" /\ "bogus" <> "imagefolder"
  /\ get_cifar100_loaders (E:=counter_env) sample_disk "data" None None
       4 4 (1 # 10) true "bogus" false (start 0)
     = (Raise ValueError, start 0).
Proof.
  split; [discriminate|]. split; [discriminate|].
  apply unknown_backend_rejected; discriminate.
Defined.




(** C7, the claim as stated fails: an archive with one image and no label
    is read without any error. *)
Lemma mismatched_archive_is_read :
  exists data w',
    _load_data (E:=counter_env) mismatched_disk "data" "train" (start 0)
      = (Ok (data, []), w')
    /\ length data = 1%nat.
Proof. eexists _, _. split; vm_compute; reflexivity. Qed.

Lemma load_data_ignores_label_count_witness :
  exists data w',
    _load_data (E:=counter_env) mismatched_disk "data" "train" (start 0)
      = (Ok (data, []), w')
    /\ length data = 1%nat
    /\ forall self : @CIFAR100 counter_env,
         c_data self = data -> c_labels self = [] ->
         __getitem__ self 0 = Raise IndexError.
Proof.
  destruct (load_data_ignores_label_count (E:=counter_env) mismatched_disk
              "data" "train"
              {| e_data := Some (archive_rows 1);
                 e_fine_labels := Some [];
                 e_fine_label_names := None |}
              (archive_rows 1) [] 1 (start 0))
    as (data & w' & Hrun & Hlen & Hitems);
    [vm_compute; reflexivity | reflexivity | reflexivity
    | apply archive_rows_nonempty
    | vm_compute; reflexivity | vm_compute; reflexivity |].
  exists data, w'. split; [exact Hrun|]. split; [exact Hlen|].
  intros self Hd Hl. apply (Hitems self 0%nat Hd Hl). cbn. lia.
Defined.


(** C9, the claim as stated fails: with [val_size = -1/2], outside of
    [0, 1], the constructor returns its datasets and raises nothing. *)
Lemma negative_val_size_builds :
  (-1 # 2 < 0)%Q
  /\ exists tr te',
       (get_cifar100_dataset (E:=counter_env) sample_disk "data" None None
          (-1 # 2) (start 0)).1 = Ok (tr, None, te').
Proof. split; [reflexivity|]. eexists _, _. vm_compute. reflexivity. Qed.

Lemma negative_val_size_accepted_witness :
  (-1 # 2 < 0)%Q
  /\ get_imagefolder_dataset (E:=counter_env) sample_disk "data" None None
       (-1 # 2) (start 0)
     = (Ok (Whole (OfImageFolder {| samples := folder_samples 100;
                                    if_transform := None |}),
            None,
            Whole (OfImageFolder {| samples := folder_samples 3;
                                    if_transform := None |})),
        @Build_world counter_env ["data/test"; "data/train"] 0%nat)
  /\ is_ok (get_cifar100_dataset (E:=counter_env) sample_disk "data"
              None None (-1 # 2) (start 0)).1 = true.
Proof.
  split; [reflexivity|].
  destruct (negative_val_size_accepted (E:=counter_env) sample_disk "data"
              None None (-1 # 2) (start 0) eq_refl) as [Hc Hf].
  split.
  - apply (Hf {| samples := folder_samples 100; if_transform := None |}
              {| samples := folder_samples 3; if_transform := None |}
              (@Build_world counter_env ["data/train"] 0%nat)
              (@Build_world counter_env ["data/test"; "data/train"] 0%nat));
      vm_compute; reflexivity.
  - run_ok (__init__ (E:=counter_env) sample_disk "data" true None (start 0))
      ltac:(fun c w1 Htr =>
    run_ok (__init__ (E:=counter_env) sample_disk "data" false None w1)
      ltac:(fun c2 w2 Hte =>
    destruct (Hc c c2 w1 w2 Htr Hte) as [Hres _]; rewrite Hres;
    reflexivity)).
Defined.


(** * Further properties of the loader *)

(** ** Constructing and indexing a CIFAR100 dataset *)

Section ArchiveErrors.
Context {E : Ambient}.

Lemma _load_data_result fs root name w :
  (_load_data fs root name w).1
  = match files fs !! archive_path root name with
    | None => Raise FileNotFoundError
    | Some NotAPickle => Raise UnpicklingError
    | Some (Pickle e) =>
        match e_data e, e_fine_labels e with
        | Some rows, Some labels =>
            match vstack rows ≫= reshape_images with
            | Ok arr => Ok (transpose_0231 arr, labels)
            | Raise err => Raise err
            end
        | _, _ => Raise KeyError
        end
    end.
Proof.
  unfold _load_data, bind, open_pickle, archive_path.
  destruct (files fs !! _) as [[|e]|]; cbn; try reflexivity.
  destruct (e_data e) as [rows|]; cbn; [|reflexivity].
  destruct (e_fine_labels e) as [labels|]; cbn; [|reflexivity].
  by destruct (vstack rows ≫= reshape_images).
Qed.

Lemma _load_data_opened fs root name w :
  (_load_data fs root name w).2
  = {| opened := archive_path root name :: opened w; rng := rng w |}.
Proof.
  unfold _load_data, bind, open_pickle, archive_path.
  destruct (files fs !! _) as [[|e]|]; cbn; try reflexivity.
  destruct (e_data e) as [rows|]; cbn; [|reflexivity].
  destruct (e_fine_labels e) as [labels|]; cbn; [|reflexivity].
  by destruct (vstack rows ≫= reshape_images).
Qed.

(** When the two numpy steps fail, and with what. *)
Lemma decode_result (rows : list (list byte)) :
  match vstack rows ≫= reshape_images with
  | Ok arr =>
      rows <> [] /\ same_length rows = true
      /\ (length (concat rows) mod IMAGE_BYTES = 0)%nat
  | Raise err =>
      err = ValueError
      /\ (rows = [] \/ same_length rows = false
          \/ (length (concat rows) mod IMAGE_BYTES <> 0)%nat)
  end.
Proof.
  unfold vstack. destruct rows as [|r rows]; cbn [mbind result_bind].
  - split; [done|]. by left.
  - destruct (same_length (r :: rows)) eqn:Hs; cbn [mbind result_bind].
    + unfold reshape_images.
      destruct (Nat.eqb_spec (length (concat (r :: rows)) mod IMAGE_BYTES) 0)
        as [Hm|Hm].
      * done.
      * split; [done|]. right. by right.
    + split; [done|]. right. by left.
Qed.



End ArchiveErrors.

Section Construction.
Context {E : Ambient}.

Lemma __init___unfold fs dir tr tf w :
  __init__ fs dir tr tf w
  = bind (_load_data fs (expanduser dir) (if tr then "train" else "test"))
      (fun dl =>
       bind (open_pickle fs (archive_path (expanduser dir) "meta"))
         (fun meta =>
          bind (key (e_fine_label_names meta)) (fun names =>
          ret {| root := expanduser dir; train := tr; transform := tf;
                 c_data := dl.1; c_labels := dl.2; classes := names |}))) w.
Proof. unfold __init__, _load_meta, archive_path. by destruct tr. Qed.

Lemma divides_image_bytes (n : nat) :
  (n mod IMAGE_BYTES = 0)%nat -> n = (n / IMAGE_BYTES * IMAGE_BYTES)%nat.
Proof.
  intros H. pose proof (Nat.div_mod_eq n IMAGE_BYTES) as Hdm.
  rewrite H in Hdm. lia.
Qed.

Lemma _load_data_pair fs dir name w :
  _load_data fs dir name w
  = ((_load_data fs dir name w).1,
     {| opened := archive_path dir name :: opened w; rng := rng w |}).
Proof.
  rewrite <- (_load_data_opened fs dir name w).
  by destruct (_load_data fs dir name w).
Qed.

(** X2. A well-formed archive is always accepted: when the split's file
    holds [N >= 1] images in rows of one length with a label list, and the
    meta file holds the class names, the constructor returns a dataset of
    length [N] with these labels and names, the expanded root, the given
    flag and transform and images of shape (32, 32, 3), after opening the
    split's file and then the meta file. *)
Theorem cifar100_built_from_wellformed_archive
    fs dir (tr : bool) tf e rows labels m names (N : nat) w :
  files fs !! archive_path (expanduser dir) (if tr then "train" else "test")
    = Some (Pickle e) ->
  e_data e = Some rows -> e_fine_labels e = Some labels ->
  rows <> [] -> same_length rows = true ->
  length (concat rows) = (N * IMAGE_BYTES)%nat ->
  files fs !! archive_path (expanduser dir) "meta" = Some (Pickle m) ->
  e_fine_label_names m = Some names ->
  exists ds,
    __init__ fs dir tr tf w
    = (Ok ds,
       {| opened := archive_path (expanduser dir) "meta"
                    :: archive_path (expanduser dir)
                         (if tr then "train" else "test")
                    :: opened w;
          rng := rng w |})
    /\ __len__ ds = N /\ c_labels ds = labels /\ classes ds = names
    /\ root ds = expanduser dir /\ train ds = tr /\ transform ds = tf
    /\ Forall (has_shape HEIGHT WIDTH CHANNELS) (c_data ds).
Proof.
  intros Hf Hd Hl Hne Hsame Hlen Hm Hn.
  destruct (decode_ok rows N Hne Hsame Hlen) as (arr & Harr & HN & Hshape & _).
  rewrite __init___unfold.
  erewrite bind_ok
    by (rewrite _load_data_pair, _load_data_result, Hf, Hd, Hl, Harr;
        reflexivity).
  erewrite bind_ok
    by (unfold open_pickle; cbn [opened rng]; rewrite Hm; reflexivity).
  rewrite Hn. cbn [key]. erewrite bind_ok by reflexivity.
  unfold ret. eexists. split; [reflexivity|].
  unfold __len__. cbn. done.
Qed.

(** What a successful construction has read, and what it has stored. *)
Lemma __init___inv fs dir (tr : bool) tf w ds w' :
  __init__ fs dir tr tf w = (Ok ds, w') ->
  exists e rows m arr,
    files fs !! archive_path (expanduser dir) (if tr then "train" else "test")
      = Some (Pickle e)
    /\ e_data e = Some rows /\ e_fine_labels e = Some (c_labels ds)
    /\ files fs !! archive_path (expanduser dir) "meta" = Some (Pickle m)
    /\ e_fine_label_names m = Some (classes ds)
    /\ vstack rows ≫= reshape_images = Ok arr
    /\ c_data ds = transpose_0231 arr
    /\ root ds = expanduser dir /\ train ds = tr /\ transform ds = tf
    /\ w' = {| opened := archive_path (expanduser dir) "meta"
                          :: archive_path (expanduser dir)
                               (if tr then "train" else "test")
                          :: opened w;
                rng := rng w |}.
Proof.
  rewrite __init___unfold. intros H.
  apply bind_inv in H as ([data labels] & w1 & Hload & H).
  apply bind_inv in H as (m & w2 & Hmeta & H).
  apply bind_inv in H as (names & w3 & Hnames & H).
  unfold ret in H. injection H as <- <-.
  rewrite _load_data_pair, _load_data_result in Hload.
  injection Hload as Hres <-.
  destruct (files fs !! archive_path _ (if tr then _ else _))
    as [[|e]|] eqn:Hf; try discriminate.
  destruct (e_data e) as [rows|] eqn:Hd; [|discriminate].
  destruct (e_fine_labels e) as [labels'|] eqn:Hl; [|discriminate].
  destruct (vstack rows ≫= reshape_images) as [arr|err] eqn:Harr;
    [|discriminate].
  injection Hres as <- <-.
  unfold open_pickle in Hmeta. cbn [opened rng] in Hmeta.
  destruct (files fs !! archive_path (expanduser dir) "meta")
    as [[|m']|] eqn:Hm; try discriminate.
  injection Hmeta as -> <-.
  destruct (e_fine_label_names m) as [names'|] eqn:Hn; [|discriminate].
  unfold key, ret in Hnames. injection Hnames as -> <-.
  exists e, rows, m, arr. cbn. done.
Qed.

(** What the two numpy steps have made of the rows when they succeed. *)
Lemma decoded_bytes (rows : list (list byte)) arr :
  vstack rows ≫= reshape_images = Ok arr ->
  rows <> []
  /\ length (concat rows) = (length (transpose_0231 arr) * IMAGE_BYTES)%nat
  /\ Forall (has_shape HEIGHT WIDTH CHANNELS) (transpose_0231 arr).
Proof.
  intros Harr. pose proof (decode_result rows) as Hdec.
  rewrite Harr in Hdec. destruct Hdec as (Hne & Hsame & Hmod).
  apply divides_image_bytes in Hmod.
  destruct (decode_ok rows _ Hne Hsame Hmod)
    as (arr' & Harr' & HN & Hshape & _).
  rewrite Harr in Harr'. injection Harr' as <-.
  rewrite HN. done.
Qed.

(** X3. What a constructed dataset guarantees: if the constructor returns
    [ds], then the split's file is a pickle with rows and labels, the rows
    hold exactly [len(ds)] images of 3072 bytes and are not missing, every
    image of [ds] has shape (32, 32, 3), the labels and class names of
    [ds] are those of the two files, and exactly the split's file and the
    meta file were opened, in that order, the generator left alone. *)
Theorem cifar100_construction_invariants fs dir (tr : bool) tf w ds w' :
  __init__ fs dir tr tf w = (Ok ds, w') ->
  exists e rows m,
    files fs !! archive_path (expanduser dir) (if tr then "train" else "test")
      = Some (Pickle e)
    /\ e_data e = Some rows /\ e_fine_labels e = Some (c_labels ds)
    /\ files fs !! archive_path (expanduser dir) "meta" = Some (Pickle m)
    /\ e_fine_label_names m = Some (classes ds)
    /\ rows <> []
    /\ length (concat rows) = (__len__ ds * IMAGE_BYTES)%nat
    /\ Forall (has_shape HEIGHT WIDTH CHANNELS) (c_data ds)
    /\ root ds = expanduser dir /\ train ds = tr /\ transform ds = tf
    /\ w' = {| opened := archive_path (expanduser dir) "meta"
                          :: archive_path (expanduser dir)
                               (if tr then "train" else "test")
                          :: opened w;
                rng := rng w |}.
Proof.
  intros H.
  apply __init___inv in H
    as (e & rows & m & arr & Hf & Hd & Hl & Hm & Hn & Harr & Hdata & Hrest).
  apply decoded_bytes in Harr as (Hne & Hbytes & Hshape).
  exists e, rows, m. unfold __len__. rewrite Hdata.
  do 5 (split; [done|]). split; [exact Hne|]. split; [exact Hbytes|].
  split; [exact Hshape|]. exact Hrest.
Qed.

End Construction.

Section Indexing.
Context {E : Ambient}.

Lemma py_getitem_out_of_range {A} (l : list A) (i : Z) :
  ~ (- Z.of_nat (length l) <= i < Z.of_nat (length l)) ->
  py_getitem l i = Raise IndexError.
Proof.
  intros Hi. unfold py_getitem.
  destruct (Z.ltb_spec i 0);
    destruct (Z.leb_spec 0 (Z.of_nat (length l) + i));
    destruct (Z.leb_spec 0 i);
    destruct (Z.ltb_spec (Z.of_nat (length l) + i) (Z.of_nat (length l)));
    destruct (Z.ltb_spec i (Z.of_nat (length l)));
    cbn [andb]; try reflexivity; lia.
Qed.

Lemma py_getitem_wraps {A} (l : list A) (i : Z) :
  0 <= i < Z.of_nat (length l) ->
  py_getitem l (i - Z.of_nat (length l)) = py_getitem l i.
Proof.
  intros Hi.
  destruct (py_getitem_valid l i) as (x & Hx & ->); [lia|].
  destruct (py_getitem_valid l (i - Z.of_nat (length l)))
    as (y & Hy & ->); [lia|].
  replace ((i - Z.of_nat (length l)) mod Z.of_nat (length l))
    with (i mod Z.of_nat (length l)) in Hy.
  - congruence.
  - rewrite <- (Z.mod_add i (-1)) by lia. f_equal; lia.
Qed.

(** X4. An index outside of [-len(ds) .. len(ds) - 1] raises IndexError,
    however many labels there are: the image is looked up first. *)
Theorem getitem_out_of_range (self : CIFAR100) (index : Z) :
  ~ (- Z.of_nat (__len__ self) <= index < Z.of_nat (__len__ self)) ->
  __getitem__ self index = Raise IndexError.
Proof.
  intros Hi. unfold __getitem__.
  by rewrite (py_getitem_out_of_range (c_data self) index Hi).
Qed.

(** X5. A negative index counts from the end: for a dataset with as many
    labels as images, [ds[i - len(ds)]] is [ds[i]] for every [i] from 0 to
    [len(ds) - 1]. *)
Theorem getitem_negative_index (self : CIFAR100) (i : Z) :
  length (c_labels self) = __len__ self ->
  0 <= i < Z.of_nat (__len__ self) ->
  __getitem__ self (i - Z.of_nat (__len__ self)) = __getitem__ self i.
Proof.
  unfold __len__. intros Hlen Hi. unfold __getitem__.
  rewrite (py_getitem_wraps (c_data self) i Hi).
  rewrite <- Hlen.
  rewrite (py_getitem_wraps (c_labels self) i) by lia.
  reflexivity.
Qed.


Lemma traverse_ext {A B} (f g : A -> result B) (l : list A) :
  (forall x, x ∈ l -> f x = g x) -> traverse f l = traverse g l.
Proof.
  induction l as [|x l IH]; intros H; cbn [traverse]; [done|].
  rewrite (H x) by (by left). rewrite IH; [done|].
  intros y Hy. apply H. by right.
Qed.




End Indexing.

Section Lossless.
Context {E : Ambient}.
Local Open Scope nat_scope.

(** Every position of a buffer of whole images is the position of one
    (image, channel, row, column). *)
Lemma position_coordinates (k N : nat) :
  k < N * IMAGE_BYTES ->
  exists i c h x,
    i < N /\ c < CHANNELS /\ h < HEIGHT /\ x < WIDTH
    /\ k = i * IMAGE_BYTES + c * (HEIGHT * WIDTH) + h * WIDTH + x.
Proof.
  intros Hk.
  exists (k / IMAGE_BYTES), (k mod IMAGE_BYTES / (HEIGHT * WIDTH)),
         (k mod IMAGE_BYTES mod (HEIGHT * WIDTH) / WIDTH),
         (k mod IMAGE_BYTES mod (HEIGHT * WIDTH) mod WIDTH).
  pose proof (Nat.div_mod_eq k IMAGE_BYTES) as H1.
  pose proof (Nat.mod_upper_bound k IMAGE_BYTES image_bytes_pos) as B1.
  set (r1 := k mod IMAGE_BYTES) in *.
  pose proof (Nat.div_mod_eq r1 (HEIGHT * WIDTH)) as H2.
  assert (HEIGHT * WIDTH <> 0) as Hhw by (unfold HEIGHT, WIDTH; lia).
  pose proof (Nat.mod_upper_bound r1 (HEIGHT * WIDTH) Hhw) as B2.
  set (r2 := r1 mod (HEIGHT * WIDTH)) in *.
  pose proof (Nat.div_mod_eq r2 WIDTH) as H3.
  assert (WIDTH <> 0) as Hw by (unfold WIDTH; lia).
  pose proof (Nat.mod_upper_bound r2 WIDTH Hw) as B3.
  set (x := r2 mod WIDTH) in *.
  set (i := k / IMAGE_BYTES) in *. set (c := r1 / (HEIGHT * WIDTH)) in *.
  set (h := r2 / WIDTH) in *.
  unfold IMAGE_BYTES, CHANNELS, HEIGHT, WIDTH in *.
  repeat split; lia.
Qed.

Lemma decode_injective (rows1 rows2 : list (list byte)) a1 a2 :
  vstack rows1 ≫= reshape_images = Ok a1 ->
  vstack rows2 ≫= reshape_images = Ok a2 ->
  transpose_0231 a1 = transpose_0231 a2 ->
  concat rows1 = concat rows2.
Proof.
  intros H1 H2 Heq.
  pose proof (decode_result rows1) as D1. rewrite H1 in D1.
  pose proof (decode_result rows2) as D2. rewrite H2 in D2.
  destruct D1 as (Hne1 & Hs1 & Hm1). destruct D2 as (Hne2 & Hs2 & Hm2).
  apply divides_image_bytes in Hm1, Hm2.
  destruct (decode_ok rows1 _ Hne1 Hs1 Hm1) as (b1 & Hb1 & HN1 & _ & Hp1).
  destruct (decode_ok rows2 _ Hne2 Hs2 Hm2) as (b2 & Hb2 & HN2 & _ & Hp2).
  rewrite H1 in Hb1. injection Hb1 as <-.
  rewrite H2 in Hb2. injection Hb2 as <-.
  assert (length (concat rows2) / IMAGE_BYTES
          = length (concat rows1) / IMAGE_BYTES) as HNN
    by (rewrite <- HN1, <- HN2, Heq; reflexivity).
  rewrite HNN in Hm2, Hp2.
  set (N := length (concat rows1) / IMAGE_BYTES) in *.
  apply list_eq. intros k.
  destruct (decide (k < N * IMAGE_BYTES)) as [Hk|Hk].
  - destruct (position_coordinates k N Hk)
      as (i & c & h & x & Hi & Hc & Hh & Hx & ->).
    rewrite <- Hp1, <- Hp2 by done. by rewrite Heq.
  - rewrite !lookup_ge_None_2 by lia. reflexivity.
Qed.

(** X7. Decoding loses nothing: two archives that are read to the same
    image array hold the same bytes, in the same order. *)
Theorem decode_is_lossless fs1 fs2 dir1 dir2 name1 name2 e1 e2
    (rows1 rows2 : list (list byte)) data labels1 labels2
    (w1 w2 w1' w2' : world) :
  files fs1 !! archive_path dir1 name1 = Some (Pickle e1) ->
  e_data e1 = Some rows1 ->
  files fs2 !! archive_path dir2 name2 = Some (Pickle e2) ->
  e_data e2 = Some rows2 ->
  _load_data fs1 dir1 name1 w1 = (Ok (data, labels1), w1') ->
  _load_data fs2 dir2 name2 w2 = (Ok (data, labels2), w2') ->
  concat rows1 = concat rows2.
Proof.
  intros Hf1 Hd1 Hf2 Hd2 L1 L2.
  apply (f_equal fst) in L1, L2. cbn [fst] in L1, L2.
  rewrite _load_data_result, Hf1, Hd1 in L1.
  rewrite _load_data_result, Hf2, Hd2 in L2.
  destruct (e_fine_labels e1); [|discriminate].
  destruct (e_fine_labels e2); [|discriminate].
  destruct (vstack rows1 ≫= reshape_images) as [a1|] eqn:H1; [|discriminate].
  destruct (vstack rows2 ≫= reshape_images) as [a2|] eqn:H2; [|discriminate].
  injection L1 as <- _. injection L2 as Heq _.
  apply (decode_injective rows1 rows2 a1 a2 H1 H2). by symmetry.
Qed.

End Lossless.

(** ** The constructors, the split and the generator *)

Section SplitEdges.
Context {E : Ambient}.

(** [random_split] with two lengths that add up to the dataset's length
    never fails and returns two subsets of the dataset. *)
Lemma random_split_two_any (d : Dataset) (c : Z) w :
  exists i1 i2,
    random_split d [Z.of_nat (Dataset_len d) - c; c] w
    = (Ok [ {| dataset := d; indices := i1 |};
            {| dataset := d; indices := i2 |} ],
       {| opened := opened w;
          rng := (randperm (rng w) (Dataset_len d)).2 |}).
Proof.
  unfold random_split. cbn [sum foldr].
  replace (Z.of_nat (Dataset_len d) - c + (c + 0))
    with (Z.of_nat (Dataset_len d)) by lia.
  rewrite Z.eqb_refl. cbn [negb]. rewrite Nat2Z.id.
  unfold bind, draw_randperm, ret.
  destruct (randperm (rng w) (Dataset_len d)) as [perm g].
  cbn [accumulate zip zip_with fmap list_fmap fst snd]. eauto.
Qed.

(** What the branch on [val_size] can return. *)
Lemma split_or_not_shape (pool test : Dataset) (v : Q) w tr va te' w' :
  split_or_not pool test v w = (Ok (tr, va, te'), w') ->
  underlying tr = pool
  /\ (forall d, va = Some d -> underlying d = pool)
  /\ te' = Whole test
  /\ opened w' = opened w.
Proof.
  unfold split_or_not. destruct (Qlt_le_dec 0 v) as [Hv|Hv].
  - destruct (random_split_two_any pool
                (py_int (inject_Z (Z.of_nat (Dataset_len pool)) * v)) w)
      as (i1 & i2 & Hrs).
    erewrite bind_ok by exact Hrs. cbn [unpack2].
    erewrite bind_ok by reflexivity. unfold ret. cbn [fst snd].
    intros [= <- <- <- <-]. cbn. split; [done|].
    split; [by intros d [= <-]|done].
  - unfold ret. intros [= <- <- <- <-]. cbn. split; [done|].
    split; [discriminate|done].
Qed.


Lemma split_or_not_cut (HE : permutes E) (pool test : Dataset) (v : Q)
    (k : nat) w :
  (0 < v)%Q ->
  py_int (inject_Z (Z.of_nat (Dataset_len pool)) * v) = Z.of_nat k ->
  (k <= Dataset_len pool)%nat ->
  split_or_not pool test v w
  = (Ok (Part {| dataset := pool;
                 indices := take (Dataset_len pool - k)
                              (randperm (rng w) (Dataset_len pool)).1 |},
         Some (Part {| dataset := pool;
                       indices := drop (Dataset_len pool - k)
                                    (randperm (rng w) (Dataset_len pool)).1 |}),
         Whole test),
     {| opened := opened w;
        rng := (randperm (rng w) (Dataset_len pool)).2 |}).
Proof.
  intros H0 Hint Hk. unfold split_or_not.
  destruct (Qlt_le_dec 0 v) as [_|Hle]; [|by apply Qle_not_lt in Hle].
  rewrite Hint.
  erewrite bind_ok by (apply random_split_two; [done|exact Hk]).
  reflexivity.
Qed.


Lemma py_int_unit (P : nat) (v : Q) :
  (v == 1)%Q -> py_int (inject_Z (Z.of_nat P) * v) = Z.of_nat P.
Proof.
  intros H1. destruct v as [n d]. unfold Qeq, py_int in *. cbn in *.
  assert (n = Z.pos d) as -> by lia.
  apply Z.quot_mul. lia.
Qed.

Lemma __init___transform fs dir tr tf w ds w' :
  __init__ fs dir tr tf w = (Ok ds, w') -> transform ds = tf.
Proof.
  intros H. apply __init___inv in H as (e & rows & m & arr & H).
  decompose [and] H. done.
Qed.

Lemma ImageFolder_init_inv fs path tf w f w' :
  ImageFolder_init fs path tf w = (Ok f, w') ->
  folders fs !! path = Some (samples f) /\ samples f <> []
  /\ if_transform f = tf
  /\ w' = {| opened := path :: opened w; rng := rng w |}.
Proof.
  unfold ImageFolder_init.
  destruct (folders fs !! path) as [[|x l]|]; try discriminate.
  intros [= <- <-]. cbn. done.
Qed.

(** A constructor builds the train pool with [train_transform], then the
    test set with [test_transform], each by reading the disk only, and
    ends with the branch on [val_size]. *)
Lemma constructor_scheme build :
  is_constructor build ->
  forall fs dir tt te,
  exists (mk_train mk_test : M Dataset),
    reads mk_train /\ reads mk_test
    /\ (forall w d w1, mk_train w = (Ok d, w1) -> Dataset_transform d = tt)
    /\ (forall w d w1, mk_test w = (Ok d, w1) -> Dataset_transform d = te)
    /\ forall v w,
         build fs dir tt te v w
         = bind mk_train (fun pool =>
           bind mk_test (fun test => split_or_not pool test v)) w.
Proof.
  intros [-> | ->] fs dir tt te.
  - exists (bind (__init__ fs dir true tt) (fun c => ret (OfCIFAR100 c))),
           (bind (__init__ fs dir false te) (fun c => ret (OfCIFAR100 c))).
    split; [|split; [|split; [|split]]].
    + apply reads_bind; [apply reads___init__|intros; apply reads_ret].
    + apply reads_bind; [apply reads___init__|intros; apply reads_ret].
    + intros w d w1 H. apply bind_inv in H as (c & w2 & Hc & H).
      unfold ret in H. injection H as <- _.
      cbn. by apply __init___transform in Hc.
    + intros w d w1 H. apply bind_inv in H as (c & w2 & Hc & H).
      unfold ret in H. injection H as <- _.
      cbn. by apply __init___transform in Hc.
    + intros v w. rewrite get_cifar100_dataset_eq. unfold bind, ret.
      destruct (__init__ fs dir true tt w) as [[c|e] w1]; [|done].
      by destruct (__init__ fs dir false te w1) as [[c2|e] w2].
  - exists (bind (ImageFolder_init fs (path_join dir "train") tt)
              (fun f => ret (OfImageFolder f))),
           (bind (ImageFolder_init fs (path_join dir "test") te)
              (fun f => ret (OfImageFolder f))).
    split; [|split; [|split; [|split]]].
    + apply reads_bind; [apply reads_ImageFolder_init|intros; apply reads_ret].
    + apply reads_bind; [apply reads_ImageFolder_init|intros; apply reads_ret].
    + intros w d w1 H. apply bind_inv in H as (c & w2 & Hc & H).
      unfold ret in H. injection H as <- _.
      cbn. by apply ImageFolder_init_inv in Hc as (_ & _ & ? & _).
    + intros w d w1 H. apply bind_inv in H as (c & w2 & Hc & H).
      unfold ret in H. injection H as <- _.
      cbn. by apply ImageFolder_init_inv in Hc as (_ & _ & ? & _).
    + intros v w. rewrite get_imagefolder_dataset_eq. unfold bind, ret.
      destruct (ImageFolder_init fs (path_join dir "train") tt w)
        as [[c|e] w1]; [|done].
      by destruct (ImageFolder_init fs (path_join dir "test") te w1)
        as [[c2|e] w2].
Qed.

(** What a constructor that returned has done. *)
Lemma constructor_inv build (Hb : is_constructor build)
    fs dir tt te v w tr va te' w' :
  build fs dir tt te v w = (Ok (tr, va, te'), w') ->
  exists pool test w2,
    split_or_not pool test v w2 = (Ok (tr, va, te'), w')
    /\ rng w2 = rng w
    /\ Dataset_transform pool = tt /\ Dataset_transform test = te
    /\ forall u v' res u',
         build fs dir tt te v' u = (Ok res, u') ->
         exists u2, split_or_not pool test v' u2 = (Ok res, u')
                    /\ rng u2 = rng u.
Proof.
  destruct (constructor_scheme build Hb fs dir tt te)
    as (mk1 & mk2 & R1 & R2 & T1 & T2 & Heq).
  rewrite Heq. intros H.
  apply bind_inv in H as (pool & w1 & H1 & H).
  apply bind_inv in H as (test & w2 & H2 & H).
  exists pool, test, w2. split; [done|].
  split; [rewrite (reads_rng _ _ _ _ R2 H2); by apply (reads_rng _ _ _ _ R1 H1)|].
  split; [by eapply T1|]. split; [by eapply T2|].
  intros u v' res u'. rewrite Heq. intros Hu.
  apply bind_inv in Hu as (pool' & u1 & Hu1 & Hu).
  apply bind_inv in Hu as (test' & u2 & Hu2 & Hu).
  destruct R1 as (r1 & log1 & R1). destruct R2 as (r2 & log2 & R2).
  rewrite R1 in H1, Hu1. rewrite R2 in H2, Hu2.
  injection H1 as -> _. injection Hu1 as <- <-.
  injection H2 as -> _. injection Hu2 as <- <-.
  exists {| opened := log2 ++ opened {| opened := log1 ++ opened u;
                                        rng := rng u |};
            rng := rng u |}.
  split; [exact Hu|done].
Qed.

End SplitEdges.

Section SplitProperties.
Context {E : Ambient}.


(** X9. With [val_size == 1] everything goes to validation: a constructor
    that returns gives an empty train subset and a validation subset
    holding every index of the pool once. *)
Theorem unit_fraction_gives_empty_train (HE : permutes E)
    build (Hb : is_constructor build) fs dir tt te (v : Q) w tr va te' w' :
  build fs dir tt te v w = (Ok (tr, va, te'), w') ->
  (v == 1)%Q ->
  exists s_tr s_va,
    tr = Part s_tr /\ va = Some (Part s_va)
    /\ indices s_tr = []
    /\ indices s_va ≡ₚ seq 0 (Dataset_len (dataset s_va)).
Proof.
  intros H H1.
  destruct (constructor_inv build Hb _ _ _ _ _ _ _ _ _ _ H)
    as (pool & test & w2 & Hsplit & _).
  rewrite (split_or_not_cut HE pool test v (Dataset_len pool) w2) in Hsplit;
    [|by rewrite H1|by apply py_int_unit|lia].
  injection Hsplit as <- <- _ _. eexists _, _.
  split; [reflexivity|]. split; [reflexivity|]. cbn [indices dataset].
  rewrite Nat.sub_diag. cbn [take drop]. split; [done|apply HE].
Qed.

(** Walking a subset is walking its index list over the dataset. *)
Lemma traverse_by_position {A B} (F : option A -> result B)
    (pre l : list A) :
  traverse (fun j => F ((pre ++ l) !! j)) (seq (length pre) (length l))
  = traverse (fun x => F (Some x)) l.
Proof.
  revert pre. induction l as [|x l IH]; intros pre; [done|].
  cbn [length seq traverse].
  rewrite list_lookup_middle by done.
  destruct (F (Some x)) as [y|e]; cbn [mbind result_bind]; [|done].
  specialize (IH (pre ++ [x])).
  rewrite length_app, Nat.add_1_r in IH. rewrite <- app_assoc in IH.
  cbn [app] in IH. by rewrite IH.
Qed.

Lemma items_of_subset (s : Subset) :
  items_in_order (Part s)
  = traverse (fun i => Dataset_getitem (dataset s) (Z.of_nat i)) (indices s).
Proof.
  unfold items_in_order. cbn [len getitem]. unfold Subset_getitem.
  rewrite <- (traverse_by_position
                (fun o => match o with
                          | Some i => Dataset_getitem (dataset s) (Z.of_nat i)
                          | None => Raise IndexError
                          end) [] (indices s)).
  cbn [app length]. apply traverse_ext. intros j _.
  rewrite py_getitem_nat. by destruct (indices s !! j).
Qed.

Lemma traverse_Permutation {A B} (f : A -> result B) (l l' : list A) ys :
  l ≡ₚ l' -> traverse f l = Ok ys ->
  exists ys', traverse f l' = Ok ys' /\ ys ≡ₚ ys'.
Proof.
  intros Hp. revert ys.
  induction Hp as [|x l l' Hp IH|x y l|l l' l'' Hp1 IH1 Hp2 IH2]; intros ys.
  - cbn. intros [= <-]. eauto.
  - cbn [traverse]. destruct (f x) as [b|e]; cbn; [|discriminate].
    destruct (traverse f l) as [bs|e] eqn:Hl; cbn; [|discriminate].
    intros [= <-]. destruct (IH bs eq_refl) as (bs' & -> & Hbs).
    cbn. eexists. split; [reflexivity|]. by constructor.
  - cbn [traverse]. destruct (f y) as [b|e]; cbn; [|discriminate].
    destruct (f x) as [c|e]; cbn; [|discriminate].
    destruct (traverse f l) as [bs|e]; cbn; [|discriminate].
    intros [= <-]. eexists. split; [reflexivity|]. apply perm_swap.
  - intros H. destruct (IH1 ys H) as (ys1 & H1 & Hq1).
    destruct (IH2 ys1 H1) as (ys2 & H2 & Hq2).
    exists ys2. split; [done|]. by etransitivity.
Qed.

(** X10. Splitting neither loses nor repeats an example: for
    [0 < val_size < 1], when every item of the train pool can be read, so
    can every item of the two subsets a constructor returns, and the items
    of the train subset followed by those of the validation subset are the
    items of the pool in another order. *)
Theorem split_preserves_examples (HE : permutes E)
    build (Hb : is_constructor build) fs dir tt te (v : Q) w tr va te' w' :
  build fs dir tt te v w = (Ok (tr, va, te'), w') ->
  (0 < v)%Q -> (v < 1)%Q ->
  exists s_tr s_va,
    tr = Part s_tr /\ va = Some (Part s_va)
    /\ dataset s_va = dataset s_tr
    /\ forall all,
         items_in_order (Whole (dataset s_tr)) = Ok all ->
         exists a b,
           items_in_order (Part s_tr) = Ok a
           /\ items_in_order (Part s_va) = Ok b
           /\ a ++ b ≡ₚ all.
Proof.
  intros H H0 H1.
  destruct (constructor_inv build Hb _ _ _ _ _ _ _ _ _ _ H)
    as (pool & test & w2 & Hsplit & _).
  rewrite (split_or_not_pos HE) in Hsplit by done.
  injection Hsplit as <- <- _ _. eexists _, _.
  split; [reflexivity|]. split; [reflexivity|]. split; [reflexivity|].
  cbn [dataset]. intros all Hall. rewrite !items_of_subset.
  cbn [dataset indices].
  unfold items_in_order in Hall. cbn [len getitem] in Hall.
  set (P := Dataset_len pool) in *. set (perm := (randperm (rng w2) P).1).
  assert (seq 0 P ≡ₚ perm) as Hperm by (symmetry; apply HE).
  destruct (traverse_Permutation _ _ _ _ Hperm Hall) as (all' & Hall' & Hq).
  rewrite <- (take_drop (P - val_count P v) perm), traverse_app in Hall'.
  destruct (traverse _ (take _ perm)) as [a|e]; [|discriminate].
  destruct (traverse _ (drop _ perm)) as [b|e]; [|discriminate].
  injection Hall' as <-. exists a, b. split; [done|]. split; [done|].
  by symmetry.
Qed.

Lemma Dataset_getitem_transform (d : Dataset) (i : Z) p l :
  Dataset_getitem d i = Ok (p, l) ->
  exists img, p = apply_transform (Dataset_transform d) img.
Proof.
  destruct d as [c|f]; cbn [Dataset_getitem Dataset_transform].
  - unfold __getitem__.
    destruct (py_getitem (c_data c) i) as [arr|]; cbn; [|discriminate].
    destruct (py_getitem (c_labels c) i) as [t|]; cbn; [|discriminate].
    intros [= <- <-]. eauto.
  - unfold ImageFolder_getitem.
    destruct (py_getitem (samples f) i) as [s|]; cbn; [|discriminate].
    intros [= <- <-]. eauto.
Qed.

Lemma getitem_transform (d : Data) (i : Z) p l :
  getitem d i = Ok (p, l) ->
  exists img, p = apply_transform (Dataset_transform (underlying d)) img.
Proof.
  destruct d as [d|s]; cbn [getitem underlying].
  - apply Dataset_getitem_transform.
  - unfold Subset_getitem.
    destruct (py_getitem (indices s) i) as [j|]; cbn; [|discriminate].
    apply Dataset_getitem_transform.
Qed.

(** X11. Which transform an item goes through: every item served by the
    train dataset and by the validation dataset a constructor returns is an
    image passed through [train_transform] (the validation subset has no
    transform of its own), and every item of the test dataset an image
    passed through [test_transform]; without a transform the image is
    served as it is. *)
Theorem items_go_through_their_transform
    build (Hb : is_constructor build) fs dir tt te (v : Q) w tr va te' w' :
  build fs dir tt te v w = (Ok (tr, va, te'), w') ->
  forall (i : Z) p l,
    (getitem tr i = Ok (p, l) -> exists img, p = apply_transform tt img)
    /\ (forall d, va = Some d -> getitem d i = Ok (p, l) ->
        exists img, p = apply_transform tt img)
    /\ (getitem te' i = Ok (p, l) -> exists img, p = apply_transform te img).
Proof.
  intros H i p l.
  destruct (constructor_inv build Hb _ _ _ _ _ _ _ _ _ _ H)
    as (pool & test & w2 & Hsplit & _ & Htt & Hte & _).
  destruct (split_or_not_shape _ _ _ _ _ _ _ _ Hsplit)
    as (Hpool & Hva & -> & _).
  split; [|split].
  - intros Hg. apply getitem_transform in Hg. by rewrite Hpool, Htt in Hg.
  - intros d Hd Hg. apply getitem_transform in Hg.
    by rewrite (Hva d Hd), Htt in Hg.
  - intros Hg. apply getitem_transform in Hg. cbn in Hg. by rewrite Hte in Hg.
Qed.

(** X12. The test set and the train pool do not depend on the split: two
    calls of a constructor on the same disk, with any two validation
    fractions and from any two states, return the same unsplit test
    dataset, and train datasets over the same pool. *)
Theorem test_set_independent_of_split
    build (Hb : is_constructor build) fs dir tt te
    (v1 v2 : Q) w1 w2 tr1 va1 te1 w1' tr2 va2 te2 w2' :
  build fs dir tt te v1 w1 = (Ok (tr1, va1, te1), w1') ->
  build fs dir tt te v2 w2 = (Ok (tr2, va2, te2), w2') ->
  te1 = te2 /\ (exists d, te1 = Whole d) /\ underlying tr1 = underlying tr2.
Proof.
  intros H1 H2.
  destruct (constructor_inv build Hb _ _ _ _ _ _ _ _ _ _ H1)
    as (pool & test & u & Hs1 & _ & _ & _ & Hany).
  destruct (Hany _ _ _ _ H2) as (u2 & Hs2 & _).
  destruct (split_or_not_shape _ _ _ _ _ _ _ _ Hs1) as (Hp1 & _ & -> & _).
  destruct (split_or_not_shape _ _ _ _ _ _ _ _ Hs2) as (Hp2 & _ & -> & _).
  split; [done|]. split; [eauto|congruence].
Qed.


End SplitProperties.

(** ** The loader builder, further *)

Section BuilderMore.
Context {E : Ambient}.

(** What a successful call of the builder has done, with the backend it
    took and the three loader constructions. *)
Lemma loaders_inv_init fs dir tt te bs nw v sh dt rs w r w' :
  get_cifar100_loaders fs dir tt te bs nw v sh dt rs w = (Ok r, w') ->
  exists build tr va te',
    (dt = "default" /\ build = get_cifar100_dataset
     \/ dt = "imagefolder" /\ build = get_imagefolder_dataset)
    /\ build fs dir tt te v w = (Ok (tr, va, te'), w')
    /\ DataLoader_init (Some tr) bs sh nw true = Ok (train_loader r)
    /\ DataLoader_init va bs sh nw true = Ok (val_loader r)
    /\ DataLoader_init (Some te') bs false nw true = Ok (test_loader r)
    /\ steps_per_epoch r
       = (if rs then Some (Z.of_nat (len tr) / bs) else None).
Proof.
  unfold get_cifar100_loaders. intros H.
  apply bind_inv in H as ([[tr va] te'] & w1 & Hds & H). cbn [fst snd] in H.
  apply lift_bind_inv in H as (l1 & H1 & H).
  apply lift_bind_inv in H as (l2 & H2 & H).
  apply lift_bind_inv in H as (l3 & H3 & H).
  assert (0 < bs) as Hbs by (by apply DataLoader_init_inv in H1 as (_ & ? & _)).
  assert (w1 = w' /\ train_loader r = l1 /\ val_loader r = l2
          /\ test_loader r = l3
          /\ steps_per_epoch r
             = (if rs then Some (Z.of_nat (len tr) / bs) else None))
    as (-> & <- & <- & <- & Hst).
  { destruct rs.
    - apply lift_bind_inv in H as (steps & Hs & H).
      unfold py_floordiv in Hs.
      destruct (Z.eqb_spec bs 0); [lia|]. injection Hs as <-.
      unfold ret in H. by injection H as <- <-.
    - unfold ret in H. by injection H as <- <-. }
  destruct (String.eqb_spec dt "default") as [->|_].
  { exists get_cifar100_dataset, tr, va, te'. eauto 10. }
  destruct (String.eqb_spec dt "imagefolder") as [->|_]; [|discriminate].
  exists get_imagefolder_dataset, tr, va, te'. eauto 10.
Qed.

(** X14. Without a validation fraction the builder cannot shuffle: for
    [val_size <= 0] it returns only when [shuffle] is off, and then the
    validation loader is built over None and the train loader over the
    whole, unsplit train pool. *)
Theorem no_validation_needs_shuffle_off
    fs dir tt te bs nw (v : Q) sh dt rs w r w' :
  (v <= 0)%Q ->
  get_cifar100_loaders fs dir tt te bs nw v sh dt rs w = (Ok r, w') ->
  sh = false
  /\ dl_dataset (val_loader r) = None
  /\ exists pool, dl_dataset (train_loader r) = Some (Whole pool).
Proof.
  intros Hv H.
  apply loaders_inv_init in H
    as (build & tr & va & te' & Hdt & Hb & H1 & H2 & _ & _).
  assert (is_constructor build) as Hc
    by (destruct Hdt as [[_ ->]|[_ ->]]; [by left|by right]).
  destruct (constructor_inv build Hc _ _ _ _ _ _ _ _ _ _ Hb)
    as (pool & test & w2 & Hsplit & _).
  rewrite split_or_not_nonpos in Hsplit by done.
  injection Hsplit as <- <- _ _.
  apply DataLoader_init_inv in H1 as (-> & _ & _).
  apply DataLoader_init_inv in H2 as (-> & _ & Hsh). cbn.
  split; [|split; [done|eauto]].
  destruct sh; [|done]. destruct (Hsh eq_refl) as (d & Hd). discriminate.
Qed.

(** X15. Asking for the steps changes nothing else: the call with
    [return_steps] off ends in the same state, raises the same exception
    or returns the same three loaders as the call with it on; in
    particular the floor division never divides by zero, a batch size of
    0 having been refused when the loaders were built. *)
Theorem return_steps_only_adds_steps fs dir tt te bs nw (v : Q) sh dt w :
  get_cifar100_loaders fs dir tt te bs nw v sh dt false w
  = (match (get_cifar100_loaders fs dir tt te bs nw v sh dt true w).1 with
     | Ok r => Ok (without_steps r)
     | Raise e => Raise e
     end,
     (get_cifar100_loaders fs dir tt te bs nw v sh dt true w).2).
Proof.
  unfold get_cifar100_loaders, bind, lift.
  destruct (if String.eqb dt "default" then _ else _) as [[[[tr va] te'] |e] w1];
    [|reflexivity].
  cbn [fst snd].
  destruct (DataLoader_init (Some tr) bs sh nw true) as [l1|e] eqn:H1;
    [|reflexivity].
  destruct (DataLoader_init va bs sh nw true) as [l2|e]; [|reflexivity].
  destruct (DataLoader_init (Some te') bs false nw true) as [l3|e];
    [|reflexivity].
  apply DataLoader_init_inv in H1 as (_ & Hbs & _).
  unfold py_floordiv. destruct (Z.eqb_spec bs 0); [lia|]. reflexivity.
Qed.


End BuilderMore.

(** ** What is read from the disk, and when *)

Section DiskAccess.
Context {E : Ambient}.











(** X18. An archive that cannot be read stops the builder at once: when
    reading the train archive raises, the default backend raises the same
    exception, having opened the train archive only; the test archive and
    the meta file are not touched, and no other argument is looked at. *)
Theorem train_archive_error_surfaces
    fs dir tt te bs nw (v : Q) sh rs w err :
  (_load_data fs (expanduser dir) "train" w).1 = Raise err ->
  get_cifar100_loaders fs dir tt te bs nw v sh "default" rs w
  = (Raise err,
     {| opened := archive_path (expanduser dir) "train" :: opened w;
        rng := rng w |}).
Proof.
  intros H. unfold get_cifar100_loaders. cbn [String.eqb Ascii.eqb Bool.eqb].
  rewrite get_cifar100_dataset_eq. unfold bind at 1 2.
  rewrite __init___unfold. unfold bind at 1.
  rewrite _load_data_pair, H. reflexivity.
Qed.


End DiskAccess.

(** ** One pass over the train loader *)

Section TrainPass.
Context {E : Ambient}.

Lemma traverse_length {A B} (f : A -> result B) (l : list A) ys :
  traverse f l = Ok ys -> length ys = length l.
Proof.
  revert ys. induction l as [|x l IH]; intros ys; cbn [traverse].
  - by intros [= <-].
  - destruct (f x) as [y|e]; cbn; [|discriminate].
    destruct (traverse f l) as [ys'|e]; cbn; [|discriminate].
    intros [= <-]. cbn. f_equal. by apply IH.
Qed.

Lemma length_batched_bounds {A} (fuel k : nat) (l : list A) :
  (0 < k)%nat -> (length l <= fuel)%nat ->
  (length (batched fuel k l) * k < length l + k)%nat
  /\ (length l <= length (batched fuel k l) * k)%nat.
Proof.
  intros Hk. revert l. induction fuel as [|fuel IH]; intros l Hl.
  - destruct l; cbn in *; lia.
  - destruct l as [|x l]; [cbn; lia|].
    cbn [batched length]. cbn [length] in Hl.
    destruct (IH (drop k (x :: l))) as [IH1 IH2];
      [rewrite length_drop; cbn [length]; lia|].
    rewrite length_drop in IH1, IH2. cbn [length] in IH1, IH2.
    set (n := length (batched fuel k (drop k (x :: l)))) in *.
    destruct n as [|n]; cbn [Nat.mul] in *; nia.
Qed.

(** The order of a pass and what it yields, shuffled or not. *)
Lemma epoch_run (dl : DataLoader) (d : Data) w :
  dl_dataset dl = Some d -> 0 < batch_size dl ->
  exists order,
    sampler_order dl w
    = (Ok order, {| opened := opened w;
                    rng := if shuffle dl then (randperm (rng w) (len d)).2
                           else rng w |})
    /\ order = (if shuffle dl then (randperm (rng w) (len d)).1
                else seq 0 (len d))
    /\ epoch dl w
       = (traverse (fetch d)
            (batched (length order) (Z.to_nat (batch_size dl)) order),
          {| opened := opened w;
             rng := if shuffle dl then (randperm (rng w) (len d)).2
                    else rng w |}).
Proof.
  intros Hd Hbs. unfold epoch, sampler_order, bind. rewrite Hd.
  destruct (shuffle dl).
  - unfold draw_randperm. destruct (randperm (rng w) (len d)) as [perm g].
    cbn [fst snd]. eexists. split; [reflexivity|]. split; [reflexivity|].
    reflexivity.
  - unfold ret, lift. destruct w as [o g]. cbn [opened rng].
    eexists. split; [reflexivity|]. split; [reflexivity|]. reflexivity.
Qed.


(** X21. The steps count full batches only: for a returned tuple with the
    steps, [steps * batch_size <= len(train) < (steps + 1) * batch_size],
    while a pass over the train loader, which keeps the last short batch,
    yields [steps] batches when the batch size divides the length of the
    train dataset and [steps + 1] batches when it does not. *)
Theorem steps_count_full_batches (HE : permutes E)
    fs dir tt te bs nw (v : Q) sh dt w r w' d w1 batches w1' :
  get_cifar100_loaders fs dir tt te bs nw v sh dt true w = (Ok r, w') ->
  dl_dataset (train_loader r) = Some d ->
  epoch (train_loader r) w1 = (Ok batches, w1') ->
  exists steps,
    steps_per_epoch r = Some steps
    /\ steps * bs <= Z.of_nat (len d) < (steps + 1) * bs
    /\ Z.of_nat (length batches)
       = if Z.of_nat (len d) mod bs =? 0 then steps else steps + 1.
Proof.
  intros H Hd Hep.
  apply loaders_inv_init in H as (_ & tr & _ & _ & _ & _ & H1 & _ & _ & Hst).
  apply DataLoader_init_inv in H1 as (Hl & Hbs & _).
  rewrite Hl in Hd. cbn in Hd. injection Hd as <-.
  exists (Z.of_nat (len tr) / bs). split; [exact Hst|].
  pose proof (Z.div_mod (Z.of_nat (len tr)) bs ltac:(lia)) as Hdm.
  pose proof (Z.mod_pos_bound (Z.of_nat (len tr)) bs Hbs) as Hmb.
  split; [nia|].
  assert (0 < batch_size (train_loader r)) as Hbs' by (by rewrite Hl).
  destruct (epoch_run (train_loader r) tr w1 ltac:(by rewrite Hl) Hbs')
    as (order & _ & Horder & Hep').
  rewrite Hep' in Hep. injection Hep as Hep _.
  apply traverse_length in Hep. rewrite Hep.
  assert (length order = len tr) as Hlen.
  { rewrite Horder. destruct (shuffle (train_loader r)).
    - apply (randperm_length HE).
    - apply length_seq. }
  rewrite Hl in *. cbn [batch_size] in *.
  destruct (length_batched_bounds (length order) (Z.to_nat bs) order)
    as [B1 B2]; [lia|lia|].
  set (n := length (batched (length order) (Z.to_nat bs) order)) in *.
  rewrite Hlen in B1, B2.
  assert (Z.of_nat n * bs < Z.of_nat (len tr) + bs) as C1.
  { apply Nat2Z.inj_lt in B1. rewrite Nat2Z.inj_mul, Nat2Z.inj_add in B1.
    rewrite Z2Nat.id in B1 by lia. exact B1. }
  assert (Z.of_nat (len tr) <= Z.of_nat n * bs) as C2.
  { apply Nat2Z.inj_le in B2. rewrite Nat2Z.inj_mul in B2.
    rewrite Z2Nat.id in B2 by lia. exact B2. }
  clearbody n. clear B1 B2 Hep.
  set (q := Z.of_nat (len tr) / bs) in *.
  set (m := Z.of_nat (len tr) mod bs) in *.
  destruct (Z.eqb_spec m 0) as [Hz|Hz]; nia.
Qed.

End TrainPass.

(** ** The order of the reads *)

Section ReadOrder.
Context {E : Ambient}.

(** X22. What a successful default constructor has read: the train
    archive, the meta file, the test archive and the meta file a second
    time, in this order and nothing else, whatever the validation
    fraction. *)
Theorem default_constructor_reads fs dir tt te (v : Q) w res w' :
  get_cifar100_dataset fs dir tt te v w = (Ok res, w') ->
  opened w'
  = [archive_path (expanduser dir) "meta";
     archive_path (expanduser dir) "test";
     archive_path (expanduser dir) "meta";
     archive_path (expanduser dir) "train"] ++ opened w.
Proof.
  intros H. destruct res as [[tr va] te'].
  apply (built_then_split_inv
           (fun b : bool => __init__ fs dir b (if b then tt else te))
           OfCIFAR100) in H as (ctr & cte & w1 & w2 & Htr & Hte & Hsplit).
  apply split_or_not_shape in Hsplit as (_ & _ & _ & ->).
  apply __init___inv in Htr as (? & ? & ? & ? & Htr). decompose [and] Htr.
  apply __init___inv in Hte as (? & ? & ? & ? & Hte). decompose [and] Hte.
  subst. reflexivity.
Qed.

End ReadOrder.

(** ** The further properties on the small disks *)

Lemma cifar100_built_from_wellformed_archive_witness :
  exists ds,
    __init__ (E:=counter_env) sample_disk "data" false None (start 0)
    = (Ok ds, @Build_world counter_env
                ["data/cifar-100-python/meta"; "data/cifar-100-python/test"]
                0%nat)
    /\ __len__ ds = 2%nat /\ c_labels ds = [2; 1]
    /\ classes ds = ["apple"; "aquarium_fish"; "baby"].
Proof.
  destruct (cifar100_built_from_wellformed_archive (E:=counter_env)
              sample_disk "data" false None
              {| e_data := Some (archive_rows 2);
                 e_fine_labels := Some [2; 1];
                 e_fine_label_names := None |}
              (archive_rows 2) [2; 1]
              {| e_data := None; e_fine_labels := None;
                 e_fine_label_names :=
                   Some ["apple"; "aquarium_fish"; "baby"] |}
              ["apple"; "aquarium_fish"; "baby"] 2 (start 0))
    as (ds & Hrun & Hlen & Hl & Hc & _);
    [vm_compute; reflexivity | reflexivity | reflexivity
    | apply archive_rows_nonempty
    | vm_compute; reflexivity | vm_compute; reflexivity
    | vm_compute; reflexivity | reflexivity |].
  exists ds. split; [exact Hrun|]. done.
Defined.

Lemma cifar100_construction_invariants_witness :
  exists ds w',
    __init__ (E:=counter_env) sample_disk "data" true None (start 0)
    = (Ok ds, w')
    /\ __len__ ds = 5%nat
    /\ Forall (has_shape HEIGHT WIDTH CHANNELS) (c_data ds)
    /\ opened w'
       = ["data/cifar-100-python/meta"; "data/cifar-100-python/train"].
Proof.
  run_ok (__init__ (E:=counter_env) sample_disk "data" true None (start 0))
    ltac:(fun ds w' H =>
  exists ds, w'; split; [exact H|];
  destruct (cifar100_construction_invariants _ _ _ _ _ _ _ H)
    as (e & rows & m & _ & _ & _ & _ & _ & _ & _ & Hshape & _ & _ & _ & Hw);
  split; [reflexivity|]; split; [exact Hshape|]; rewrite Hw; reflexivity).
Defined.

Lemma getitem_out_of_range_witness :
  ~ (- Z.of_nat (__len__ tiny_dataset) <= 2 < Z.of_nat (__len__ tiny_dataset))
  /\ __getitem__ tiny_dataset 2 = Raise IndexError
  /\ __getitem__ tiny_dataset (-3) = Raise IndexError.
Proof.
  split; [cbn; lia|]. split.
  - apply getitem_out_of_range. cbn. lia.
  - apply getitem_out_of_range. cbn. lia.
Defined.

Lemma getitem_negative_index_witness :
  length (c_labels tiny_dataset) = __len__ tiny_dataset
  /\ 0 <= 1 < Z.of_nat (__len__ tiny_dataset)
  /\ __getitem__ tiny_dataset (-1) = __getitem__ tiny_dataset 1.
Proof.
  split; [reflexivity|]. split; [cbn; lia|].
  apply (getitem_negative_index tiny_dataset 1 eq_refl). cbn. lia.
Defined.

Lemma decode_is_lossless_witness :
  archive_rows 1 <> chunks 2 (IMAGE_BYTES / 2) (archive_row 0)
  /\ concat (archive_rows 1)
     = concat (chunks 2 (IMAGE_BYTES / 2) (archive_row 0)).
Proof.
  split; [intros H; apply (f_equal length) in H; discriminate|].
  run_ok (_load_data (E:=counter_env) mismatched_disk "data" "train" (start 0))
    ltac:(fun dl1 w1 H1 =>
  match dl1 with
  | (?data, ?l1) =>
      eapply (decode_is_lossless (E:=counter_env) mismatched_disk halved_disk
                "data" "data" "train" "train" _ _ _ _ data l1 [5]
                (start 0) (start 0) w1 w1);
        [vm_compute; reflexivity | reflexivity
        | vm_compute; reflexivity | reflexivity
        | exact H1 | vm_compute; reflexivity]
  end).
Defined.


Lemma unit_fraction_gives_empty_train_witness :
  exists tr va te' w',
    get_imagefolder_dataset (E:=counter_env) sample_disk "data" None None
      1 (start 3) = (Ok (tr, va, te'), w')
    /\ (exists s_tr, tr = Part s_tr /\ indices s_tr = [])
    /\ (exists d, va = Some d /\ len d = 100%nat).
Proof.
  run_ok (get_imagefolder_dataset (E:=counter_env) sample_disk "data"
            None None 1 (start 3))
    ltac:(fun res w' H =>
  match res with
  | (?tr, ?va, ?te') =>
      exists tr, va, te', w'; split; [exact H|];
      destruct (unit_fraction_gives_empty_train counter_env_permutes
                  _ (or_intror eq_refl) _ _ _ _ _ _ _ _ _ _ H)
        as (s_tr & s_va & Htr & _ & Hnil & _); [reflexivity|];
      split; [eauto|]; eexists; split; reflexivity
  end).
Defined.

Lemma split_preserves_examples_witness :
  exists tr va te' w',
    get_imagefolder_dataset (E:=counter_env) sample_disk "data" None None
      (2 # 5) (start 3) = (Ok (tr, va, te'), w')
    /\ exists s_tr s_va all a b,
         tr = Part s_tr /\ va = Some (Part s_va)
         /\ items_in_order (Whole (dataset s_tr)) = Ok all
         /\ items_in_order (Part s_tr) = Ok a
         /\ items_in_order (Part s_va) = Ok b
         /\ a ++ b ≡ₚ all.
Proof.
  run_ok (get_imagefolder_dataset (E:=counter_env) sample_disk "data"
            None None (2 # 5) (start 3))
    ltac:(fun res w' H =>
  match res with
  | (?tr, ?va, ?te') =>
      exists tr, va, te', w'; split; [exact H|];
      destruct (split_preserves_examples counter_env_permutes
                  _ (or_intror eq_refl) _ _ _ _ _ _ _ _ _ _ H eq_refl eq_refl)
        as (s_tr & s_va & Htr & Hva & _ & Hall);
      destruct (items_in_order (Whole (dataset s_tr))) as [all|e] eqn:Hi;
        [|injection Htr as <-; vm_compute in Hi; discriminate];
      destruct (Hall all eq_refl) as (a & b & Ha & Hb & Hab);
      exists s_tr, s_va, all, a, b; done
  end).
Defined.

Lemma items_go_through_their_transform_witness :
  exists tr va te' w',
    get_imagefolder_dataset (E:=counter_env) sample_disk "data"
      (Some blank) (Some first_row) (2 # 5) (start 3)
    = (Ok (tr, va, te'), w')
    /\ is_ok (getitem tr 0) = true /\ is_ok (getitem te' 0) = true
    /\ forall p l,
         (getitem tr 0 = Ok (p, l) ->
          exists img, p = @Transformed counter_env (blank img))
         /\ (getitem te' 0 = Ok (p, l) ->
             exists img, p = @Transformed counter_env (first_row img)).
Proof.
  run_ok (get_imagefolder_dataset (E:=counter_env) sample_disk "data"
            (Some blank) (Some first_row) (2 # 5) (start 3))
    ltac:(fun res w' H =>
  match res with
  | (?tr, ?va, ?te') =>
      exists tr, va, te', w'; split; [exact H|];
      split; [reflexivity|]; split; [reflexivity|];
      intros p l;
      destruct (items_go_through_their_transform
                  _ (or_intror eq_refl) _ _ _ _ _ _ _ _ _ _ H 0 p l)
        as (Htr & _ & Hte); split; assumption
  end).
Defined.

Lemma test_set_independent_of_split_witness :
  exists tr1 va1 te1 w1 tr2 va2 te2 w2,
    get_imagefolder_dataset (E:=counter_env) sample_disk "data" None None
      (2 # 5) (start 0) = (Ok (tr1, va1, te1), w1)
    /\ get_imagefolder_dataset (E:=counter_env) sample_disk "data" None None
         0 (start 5) = (Ok (tr2, va2, te2), w2)
    /\ va1 <> va2 /\ te1 = te2 /\ underlying tr1 = underlying tr2.
Proof.
  run_ok (get_imagefolder_dataset (E:=counter_env) sample_disk "data"
            None None (2 # 5) (start 0))
    ltac:(fun res1 w1 H1 =>
  run_ok (get_imagefolder_dataset (E:=counter_env) sample_disk "data"
            None None 0 (start 5))
    ltac:(fun res2 w2 H2 =>
  match res1 with
  | (?tr1, ?va1, ?te1) =>
      match res2 with
      | (?tr2, ?va2, ?te2) =>
          exists tr1, va1, te1, w1, tr2, va2, te2, w2;
          split; [exact H1|]; split; [exact H2|]; split; [discriminate|];
          destruct (test_set_independent_of_split
                      _ (or_intror eq_refl) _ _ _ _ _ _ _ _ _ _ _ _ _ _ _ _
                      H1 H2) as (Hte & _ & Hpool);
          split; [exact Hte|exact Hpool]
      end
  end)).
Defined.


Lemma no_validation_needs_shuffle_off_witness :
  (0 <= 0)%Q
  /\ exists r w',
       get_cifar100_loaders (E:=counter_env) sample_disk "data" None None
         4 4 0 false "imagefolder" false (start 0) = (Ok r, w')
       /\ dl_dataset (val_loader r) = None
       /\ exists pool, dl_dataset (train_loader r) = Some (Whole pool).
Proof.
  split; [apply Qle_refl|].
  run_ok (get_cifar100_loaders (E:=counter_env) sample_disk "data" None None
            4 4 0 false "imagefolder" false (start 0))
    ltac:(fun r w' H =>
  exists r, w'; split; [exact H|];
  destruct (no_validation_needs_shuffle_off (E:=counter_env)
              _ _ _ _ _ _ _ _ _ _ _ _ _ (Qle_refl 0) H)
    as (_ & Hval & Htrain);
  split; [exact Hval|exact Htrain]).
Defined.



Lemma train_archive_error_surfaces_witness :
  get_cifar100_loaders (E:=counter_env) empty_archive_disk "data" None None
    0 4 (1 # 10) true "default" true (start 6)
  = (Raise ValueError,
     @Build_world counter_env ["data/cifar-100-python/train"] 6%nat).
Proof.
  apply (train_archive_error_surfaces (E:=counter_env) empty_archive_disk
           "data" None None 0 4 (1 # 10) true true (start 6) ValueError).
  vm_compute. reflexivity.
Defined.



Lemma steps_count_full_batches_witness :
  exists r w' batches w1',
    get_cifar100_loaders (E:=counter_env) sample_disk "data" None None
      4 4 (1 # 10) true "imagefolder" true (start 0) = (Ok r, w')
    /\ epoch (train_loader r) (start 2) = (Ok batches, w1')
    /\ steps_per_epoch r = Some 22
    /\ length batches = 23%nat.
Proof.
  run_ok (get_cifar100_loaders (E:=counter_env) sample_disk "data" None None
            4 4 (1 # 10) true "imagefolder" true (start 0))
    ltac:(fun r w' H =>
  run_ok (epoch (train_loader r) (start 2))
    ltac:(fun batches w1' Hep =>
  let d := eval vm_compute in (dl_dataset (train_loader r)) in
  match d with
  | Some ?d =>
      destruct (steps_count_full_batches (E:=counter_env)
                  counter_env_permutes _ _ _ _ _ _ _ _ _ _ _ _ d _ _ _
                  H eq_refl Hep)
        as (steps & Hsteps & _ & Hn);
      exists r, w', batches, w1'; split; [exact H|]; split; [exact Hep|];
      cbn in Hsteps; injection Hsteps as <-;
      split; [reflexivity|];
      apply Nat2Z.inj; rewrite Hn; vm_compute; reflexivity
  end)).
Defined.

Lemma default_constructor_reads_witness :
  exists res w',
    get_cifar100_dataset (E:=counter_env) sample_disk "data" None None
      (2 # 5) (start 0) = (Ok res, w')
    /\ opened w'
       = ["data/cifar-100-python/meta"; "data/cifar-100-python/test";
          "data/cifar-100-python/meta"; "data/cifar-100-python/train"].
Proof.
  run_ok (get_cifar100_dataset (E:=counter_env) sample_disk "data" None None
            (2 # 5) (start 0))
    ltac:(fun res w' H =>
  exists res, w'; split; [exact H|];
  rewrite (default_constructor_reads (E:=counter_env) _ _ _ _ _ _ _ _ H);
  reflexivity).
Defined.
